(** * Fibonacci Face Analyzer: a shallow embedding of the client

    The development follows the layout of the repository:

    - [Types]          : [types.ts], the data model;
    - [Js]             : the few pieces of the JavaScript platform the code
                         leans on (thrown values, truthiness, [String.trim]);
    - [Json]           : JSON values and [JSON.parse];
    - [GeminiService]  : [services/geminiService.ts], the analysis client;
    - [App]            : [App.tsx], the application controller;
    - [PdfGenerator]   : [utils/pdfGenerator.ts], the report exporter;
    - [AnalysisReport] : [components/AnalysisReport.tsx], the renderer;
    - [Samples]        : concrete inputs for the examples.

    Numbers are modelled by what the code does with them: scores and
    deviations are integers, overlay coordinates are binary64 floats, and
    the page geometry of the exporter is computed in exact rationals.

    Definitions come first, the theorems about them follow. *)

From Stdlib Require Import ZArith QArith Floats String Ascii List Bool Lia.
From stdpp Require Import gmap strings list pretty.

Set Warnings "-inexact-float,-register-all".
Close Scope Q_scope.
Open Scope string_scope.

(* ===================================================================== *)
(** ** types.ts *)
(* ===================================================================== *)

Module Types.

(** The browser's [File]: the handlers only read [type]; [name] and the
    payload are carried along. *)
Record File := mkFile {
  name : string;
  type : string;
  payload : string
}.

Record ImageFile := mkImageFile { file : File }.

Record FeatureScore := mkFeatureScore {
  feature : string;
  score : Z
}.

Record DetailedScore := mkDetailedScore {
  ratioName : string;
  value : string;
  deviation : Z
}.

(** [x1 .. y2] are JavaScript numbers (binary64). *)
Record OverlayLine := mkOverlayLine {
  x1 : float;
  y1 : float;
  x2 : float;
  y2 : float;
  label : option string
}.

(** [error?: 'MULTIPLE_FACES' | 'LOW_QUALITY' | 'NO_FACE'] *)
Inductive ErrorKind := MULTIPLE_FACES | LOW_QUALITY | NO_FACE.

Record AnalysisResult := mkAnalysisResult {
  overallScore : Z;
  feedback : string;
  featureScores : list FeatureScore;
  detailedScores : list DetailedScore;
  overlayLines : list OverlayLine;
  error : option ErrorKind;
  errorMessage : option string
}.

Inductive AppState := Idle | Loading | Result | Error.

End Types.

(* ===================================================================== *)
(** ** The JavaScript platform *)
(* ===================================================================== *)

Module Js.

(** What a [throw] (or a rejected promise) carries: an instance of
    [Error] with its [message], or any other value (the [ProgressEvent]
    of a failed [FileReader], for one). *)
Inductive Thrown :=
| ErrorObject (message : string)
| OtherValue (description : string).

(** How an awaited promise settles. *)
Inductive Settled (A : Type) :=
| Fulfilled (v : A)
| Rejected (e : Thrown).
Arguments Fulfilled {A} v.
Arguments Rejected {A} e.

(** Truthiness of an optional string: [undefined] and [''] are falsy. *)
Definition truthy (s : option string) : bool :=
  match s with
  | None => false
  | Some v => negb (String.eqb v "")
  end.

(** Truthiness of an optional object or non-empty literal. *)
Definition present {A : Type} (o : option A) : bool :=
  match o with
  | None => false
  | Some _ => true
  end.

(** [Array.prototype.includes] on an array of strings. *)
Definition includes (l : list string) (x : string) : bool :=
  existsb (String.eqb x) l.

(** Strings are kept as the bytes of their UTF-8 encoding; [utf8] encodes
    one code point (a lone surrogate gets the three-byte form). *)
Definition byte (n : N) : ascii := ascii_of_N n.

Definition utf8 (cp : N) : string :=
  if (cp <? 0x80)%N then
    String (byte cp) ""
  else if (cp <? 0x800)%N then
    String (byte (0xC0 + cp / 64))
      (String (byte (0x80 + cp mod 64)) "")
  else if (cp <? 0x10000)%N then
    String (byte (0xE0 + cp / 4096))
      (String (byte (0x80 + (cp / 64) mod 64))
         (String (byte (0x80 + cp mod 64)) ""))
  else
    String (byte (0xF0 + cp / 262144))
      (String (byte (0x80 + (cp / 4096) mod 64))
         (String (byte (0x80 + (cp / 64) mod 64))
            (String (byte (0x80 + cp mod 64)) ""))).

(** The code points [String.prototype.trim] removes: ECMAScript's
    WhiteSpace and LineTerminator. *)
Definition whiteSpaceCodePoints : list N :=
  [ 0x09; 0x0A; 0x0B; 0x0C; 0x0D; 0x20; 0xA0; 0x1680;
    0x2000; 0x2001; 0x2002; 0x2003; 0x2004; 0x2005; 0x2006; 0x2007;
    0x2008; 0x2009; 0x200A; 0x2028; 0x2029; 0x202F; 0x205F; 0x3000;
    0xFEFF ]%N.

Definition whiteSpace : list string := map utf8 whiteSpaceCodePoints.

Definition reverse (s : string) : string :=
  string_of_list_ascii (rev (list_ascii_of_string s)).

Fixpoint dropPrefix (p s : string) : option string :=
  match p, s with
  | EmptyString, _ => Some s
  | String a p', String b s' => if Ascii.eqb a b then dropPrefix p' s' else None
  | String _ _, EmptyString => None
  end.

Fixpoint dropAny (ps : list string) (s : string) : option string :=
  match ps with
  | [] => None
  | p :: ps' =>
      match dropPrefix p s with
      | Some r => Some r
      | None => dropAny ps' s
      end
  end.

Fixpoint dropWhile (fuel : nat) (ps : list string) (s : string) : string :=
  match fuel with
  | O => s
  | S n =>
      match dropAny ps s with
      | Some r => dropWhile n ps r
      | None => s
      end
  end.

Definition trimStart (s : string) : string :=
  dropWhile (String.length s) whiteSpace s.

Definition trimEnd (s : string) : string :=
  reverse (dropWhile (String.length s) (map reverse whiteSpace) (reverse s)).

Definition trim (s : string) : string := trimEnd (trimStart s).

End Js.

(* ===================================================================== *)
(** ** JSON values and JSON.parse *)
(* ===================================================================== *)

Module Json.
Local Open Scope Z_scope.

(** A number literal keeps its exact decimal value,
    [mantissa * 10 ^ exponent]. *)
Record Decimal := mkDecimal { mantissa : Z; exponent : Z }.

(** An object keeps its members in the order of the text; [get] reads the
    last member of a name, as an assignment per member leaves it. *)
Inductive Value :=
| Null
| Bool (b : bool)
| Number (n : Decimal)
| Str (s : string)
| Array (elements : list Value)
| Object (members : list (string * Value)).

Fixpoint get (members : list (string * Value)) (key : string) : option Value :=
  match members with
  | [] => None
  | (k, v) :: rest =>
      match get rest key with
      | Some later => Some later
      | None => if String.eqb k key then Some v else None
      end
  end.

Definition quote : ascii := "034"%char.
Definition backslash : ascii := "092"%char.

Definition isWhitespace (c : ascii) : bool :=
  Ascii.eqb c " " || Ascii.eqb c "009" || Ascii.eqb c "010" || Ascii.eqb c "013".

Fixpoint skipWhitespace (s : string) : string :=
  match s with
  | String c rest => if isWhitespace c then skipWhitespace rest else s
  | EmptyString => s
  end.

(** The text after the character [c], when [s] starts with it. *)
Definition expect (c : ascii) (s : string) : option string :=
  match s with
  | String a rest => if Ascii.eqb a c then Some rest else None
  | EmptyString => None
  end.

Definition isDigit (c : ascii) : bool :=
  (48 <=? N_of_ascii c)%N && (N_of_ascii c <=? 57)%N.

Definition digitValue (c : ascii) : Z := Z.of_N (N_of_ascii c) - 48.

(** The longest run of digits at the head of [s]: its value read in base
    ten from [acc], how many digits it has, and what follows. *)
Fixpoint digits (acc : Z) (count : Z) (s : string) : Z * Z * string :=
  match s with
  | String c rest =>
      if isDigit c then digits (10 * acc + digitValue c) (count + 1) rest
      else (acc, count, s)
  | EmptyString => (acc, count, s)
  end.

Definition hexValue (c : ascii) : option N :=
  let n := N_of_ascii c in
  if (48 <=? n)%N && (n <=? 57)%N then Some (n - 48)%N
  else if (65 <=? n)%N && (n <=? 70)%N then Some (n - 55)%N
  else if (97 <=? n)%N && (n <=? 102)%N then Some (n - 87)%N
  else None.

Definition hex4 (a b c d : ascii) : option N :=
  match hexValue a, hexValue b, hexValue c, hexValue d with
  | Some x, Some y, Some z, Some w => Some (((x * 16 + y) * 16 + z) * 16 + w)%N
  | _, _, _, _ => None
  end.

(** What a string literal is made of: a byte of the text, or the UTF-16
    code unit of a [\uXXXX] escape. *)
Inductive Unit16 :=
| Raw (c : ascii)
| Escaped (u : N).

Definition simpleEscape (c : ascii) : option ascii :=
  if Ascii.eqb c quote then Some quote
  else if Ascii.eqb c backslash then Some backslash
  else if Ascii.eqb c "/" then Some "/"%char
  else if Ascii.eqb c "b" then Some "008"%char
  else if Ascii.eqb c "f" then Some "012"%char
  else if Ascii.eqb c "n" then Some "010"%char
  else if Ascii.eqb c "r" then Some "013"%char
  else if Ascii.eqb c "t" then Some "009"%char
  else None.

(** The body of a string literal, the opening quote already read. *)
Fixpoint stringUnits (s : string) : option (list Unit16 * string) :=
  match s with
  | EmptyString => None
  | String c rest =>
      if Ascii.eqb c quote then Some ([], rest)
      else if Ascii.eqb c backslash then
        match rest with
        | EmptyString => None
        | String e rest1 =>
            if Ascii.eqb e "u" then
              match rest1 with
              | String h1 (String h2 (String h3 (String h4 rest2))) =>
                  match hex4 h1 h2 h3 h4 with
                  | Some u =>
                      match stringUnits rest2 with
                      | Some (us, r) => Some (Escaped u :: us, r)
                      | None => None
                      end
                  | None => None
                  end
              | _ => None
              end
            else
              match simpleEscape e with
              | Some ch =>
                  match stringUnits rest1 with
                  | Some (us, r) => Some (Raw ch :: us, r)
                  | None => None
                  end
              | None => None
              end
        end
      else if (N_of_ascii c <? 32)%N then None
      else
        match stringUnits rest with
        | Some (us, r) => Some (Raw c :: us, r)
        | None => None
        end
  end.

Definition isHighSurrogate (u : N) : bool := (0xD800 <=? u)%N && (u <=? 0xDBFF)%N.
Definition isLowSurrogate (u : N) : bool := (0xDC00 <=? u)%N && (u <=? 0xDFFF)%N.

(** The bytes of a literal's units; a surrogate pair is one code point. *)
Fixpoint encodeUnits (us : list Unit16) : string :=
  match us with
  | [] => ""
  | Raw c :: rest => String c (encodeUnits rest)
  | Escaped hi :: rest =>
      match rest with
      | Escaped lo :: rest' =>
          if isHighSurrogate hi && isLowSurrogate lo then
            Js.utf8 (0x10000 + (hi - 0xD800) * 0x400 + (lo - 0xDC00))%N
              ++ encodeUnits rest'
          else Js.utf8 hi ++ encodeUnits rest
      | _ => Js.utf8 hi ++ encodeUnits rest
      end
  end.

Definition parseString (s : string) : option (string * string) :=
  match stringUnits s with
  | Some (us, rest) => Some (encodeUnits us, rest)
  | None => None
  end.

(** The integer part of a number that starts with the digit [c]: a lone
    [0], or the whole run of digits. *)
Definition integerPart (c : ascii) (r0 : string) : Z * string :=
  if Ascii.eqb c "0" then (0, r0)
  else let '(v, _, r) := digits 0 0 (String c r0) in (v, r).

(** The fraction, when there is one: the digits go on after those of
    [int]; what comes back is the mantissa and how many digits follow the
    point. *)
Definition fractionPart (int : Z) (rest : string) : option (Z * Z * string) :=
  match expect "." rest with
  | Some r1 =>
      let '(v, n, r2) := digits int 0 r1 in
      if n =? 0 then None else Some (v, n, r2)
  | None => Some (int, 0, rest)
  end.

(** The exponent, when there is one, and the number as a whole. *)
Definition exponentPart (signed scale : Z) (rest1 : string)
  : option (Decimal * string) :=
  let marker :=
    match expect "e" rest1 with
    | Some r => Some r
    | None => expect "E" rest1
    end in
  match marker with
  | None => Some ({| mantissa := signed; exponent := - scale |}, rest1)
  | Some r =>
      let '(esign, r3) :=
        match expect "+" r with
        | Some r' => (1, r')
        | None =>
            match expect "-" r with
            | Some r' => (-1, r')
            | None => (1, r)
            end
        end in
      let '(e, n, r4) := digits 0 0 r3 in
      if n =? 0 then None
      else Some ({| mantissa := signed; exponent := esign * e - scale |}, r4)
  end.

Definition unsignedNumber (negative : bool) (s0 : string)
  : option (Decimal * string) :=
  match s0 with
  | EmptyString => None
  | String c r0 =>
      if negb (isDigit c) then None
      else
        let '(int, rest) := integerPart c r0 in
        match fractionPart int rest with
        | None => None
        | Some (m, scale, rest1) =>
            exponentPart (if negative then - m else m) scale rest1
        end
  end.

(** [-? int frac? exp?], where [int] is [0] or starts with [1 .. 9]. *)
Definition parseNumber (s : string) : option (Decimal * string) :=
  match expect "-" s with
  | Some r => unsignedNumber true r
  | None => unsignedNumber false s
  end.

Definition parseLiteral (word : string) (v : Value) (s : string)
  : option (Value * string) :=
  match Js.dropPrefix word s with
  | Some rest => Some (v, rest)
  | None => None
  end.

Fixpoint parseValue (fuel : nat) (s : string) : option (Value * string) :=
  match fuel with
  | O => None
  | S n =>
      match skipWhitespace s with
      | EmptyString => None
      | String c rest as s0 =>
          if Ascii.eqb c "{" then
            match expect "}" (skipWhitespace rest) with
            | Some r => Some (Object [], r)
            | None =>
                match parseMembers n rest with
                | Some (ms, r) => Some (Object ms, r)
                | None => None
                end
            end
          else if Ascii.eqb c "[" then
            match expect "]" (skipWhitespace rest) with
            | Some r => Some (Array [], r)
            | None =>
                match parseElements n rest with
                | Some (vs, r) => Some (Array vs, r)
                | None => None
                end
            end
          else if Ascii.eqb c quote then
            match parseString rest with
            | Some (str, r) => Some (Str str, r)
            | None => None
            end
          else if Ascii.eqb c "t" then parseLiteral "true" (Bool true) s0
          else if Ascii.eqb c "f" then parseLiteral "false" (Bool false) s0
          else if Ascii.eqb c "n" then parseLiteral "null" Null s0
          else
            match parseNumber s0 with
            | Some (d, r) => Some (Number d, r)
            | None => None
            end
      end
  end
with parseElements (fuel : nat) (s : string) : option (list Value * string) :=
  match fuel with
  | O => None
  | S n =>
      match parseValue n s with
      | None => None
      | Some (v, r) =>
          match expect "," (skipWhitespace r) with
          | Some r' =>
              match parseElements n r' with
              | Some (vs, r'') => Some (v :: vs, r'')
              | None => None
              end
          | None =>
              match expect "]" (skipWhitespace r) with
              | Some r' => Some ([v], r')
              | None => None
              end
          end
      end
  end
with parseMembers (fuel : nat) (s : string)
  : option (list (string * Value) * string) :=
  match fuel with
  | O => None
  | S n =>
      match expect quote (skipWhitespace s) with
      | None => None
      | Some r0 =>
          match parseString r0 with
          | None => None
          | Some (key, r1) =>
              match expect ":" (skipWhitespace r1) with
              | None => None
              | Some r2 =>
                  match parseValue n r2 with
                  | None => None
                  | Some (v, r3) =>
                      match expect "," (skipWhitespace r3) with
                      | Some r4 =>
                          match parseMembers n r4 with
                          | Some (ms, r5) => Some ((key, v) :: ms, r5)
                          | None => None
                          end
                      | None =>
                          match expect "}" (skipWhitespace r3) with
                          | Some r4 => Some ([(key, v)], r4)
                          | None => None
                          end
                      end
                  end
              end
          end
      end
  end.

(** [JSON.parse]: one value, white space around it, nothing else; [None]
    stands for the [SyntaxError] it throws. *)
Definition parse (text : string) : option Value :=
  match parseValue (2 * String.length text + 2)%nat text with
  | Some (v, rest) =>
      match skipWhitespace rest with
      | EmptyString => Some v
      | String _ _ => None
      end
  | None => None
  end.

(** Fuel only bounds the depth of the calls: a value read with some fuel
    is read shorter than the text and is read again with any fuel of at
    least twice the number of characters it took. *)
Definition adequate {A : Type} (parser : nat -> string -> option (A * string))
    (fuel : nat) : Prop :=
  forall (s : string) (a : A) (r : string),
    parser fuel s = Some (a, r) ->
    (String.length r < String.length s)%nat
    /\ forall k : nat,
         (2 * (String.length s - String.length r) <= k)%nat ->
         parser k s = Some (a, r).

End Json.

(* ===================================================================== *)
(** ** services/geminiService.ts: the analysis client *)
(* ===================================================================== *)

Module GeminiService.
Import Types.
Local Open Scope Z_scope.

Record InlineData := mkInlineData {
  data : option string;
  mimeType : string
}.

Inductive Part :=
| TextPart (text : string)
| InlineDataPart (inlineData : InlineData).

(** [s.split(',')]: the pieces of [s] between its commas. *)
Fixpoint split_comma (s : string) : list string :=
  match s with
  | EmptyString => [""]
  | String c rest =>
      if Ascii.eqb c "," then "" :: split_comma rest
      else
        match split_comma rest with
        | piece :: pieces => String c piece :: pieces
        | [] => [String c ""]
        end
  end.

(** The promise of [fileToGenerativePart]: [reader.onload] resolves it
    with the second piece of the data URL, [reader.onerror] rejects it. *)
Definition fileToGenerativePart
    (readAsDataURL : File -> Js.Settled string) (imageFile : ImageFile)
  : Js.Settled Part :=
  match readAsDataURL (file imageFile) with
  | Js.Fulfilled result =>
      let base64Data := nth_error (split_comma result) 1 in
      Js.Fulfilled
        (InlineDataPart
           {| data := base64Data; mimeType := type (file imageFile) |})
  | Js.Rejected error => Js.Rejected error
  end.

(** The response schema, without the [description] texts. *)
Inductive Schema :=
| STRING
| INTEGER
| NUMBER
| ARRAY (items : Schema)
| OBJECT (properties : list (string * Schema)) (required : list string).

Definition analysisSchema : Schema :=
  OBJECT
    [ ("error", STRING);
      ("errorMessage", STRING);
      ("overallScore", INTEGER);
      ("feedback", STRING);
      ("featureScores",
        ARRAY (OBJECT [("feature", STRING); ("score", INTEGER)]
                      ["feature"; "score"]));
      ("detailedScores",
        ARRAY (OBJECT [("ratioName", STRING); ("value", STRING);
                       ("deviation", INTEGER)]
                      ["ratioName"; "value"; "deviation"]));
      ("overlayLines",
        ARRAY (OBJECT [("x1", NUMBER); ("y1", NUMBER); ("x2", NUMBER);
                       ("y2", NUMBER); ("label", STRING)]
                      ["x1"; "y1"; "x2"; "y2"])) ]
    ["overallScore"; "feedback"; "featureScores"; "detailedScores";
     "overlayLines"].

Definition isInteger (d : Json.Decimal) : bool :=
  (0 <=? Json.exponent d) || (Json.mantissa d mod 10 ^ (- Json.exponent d) =? 0).

(** A value has the shape of a schema: the right kind of value, every
    required property there, every declared property that is there of
    the declared shape. *)
Fixpoint conforms (schema : Schema) (v : Json.Value) : bool :=
  match schema, v with
  | STRING, Json.Str _ => true
  | INTEGER, Json.Number d => isInteger d
  | NUMBER, Json.Number _ => true
  | ARRAY items, Json.Array elements => forallb (conforms items) elements
  | OBJECT properties required, Json.Object members =>
      forallb (fun key => Js.present (Json.get members key)) required
      && forallb
           (fun property : string * Schema =>
              match Json.get members (fst property) with
              | Some member => conforms (snd property) member
              | None => true
              end)
           properties
  | _, _ => false
  end.

Definition prompt : string :=
"You are an expert in facial aesthetics and the golden ratio (phi, approx 1.618). Analyze the provided face image.

First, VALIDATE the image:
1.  If more than one face is detected, respond ONLY with a JSON object that sets 'error' to 'MULTIPLE_FACES' and 'errorMessage' to 'Please upload a clear photo with only one visible face.'. Populate other fields with default empty/zero values.
2.  If the image is blurry, low-quality, or a face cannot be clearly detected, respond ONLY with a JSON object that sets 'error' to 'LOW_QUALITY' and 'errorMessage' to 'Face not detected properly. Please upload a clear front or side image.'. Populate other fields with default empty/zero values.

If the image is VALID:
1.  Identify key facial landmarks.
2.  Calculate the ratios between these landmarks. Specifically measure for: 'Facial Symmetry', 'Eye Spacing', 'Nose to Lip Ratio', and 'Forehead Height to Face Width'.
3.  Compare each significant ratio to the golden ratio to determine harmony and balance.
4.  Generate a detailed analysis.
5.  For the 'featureScores' array, provide a score from 0-100 for each of these specific features: 'Facial Symmetry', 'Eye Spacing', 'Nose to Lip Ratio', and 'Forehead Height to Face Width'. You can include other relevant features as well.
6.  For the 'detailedScores' array, show each measured ratio (e.g., 'Face Width / Height', 'Nose Length / Philtrum-Chin Length', 'Forehead Height / Face Width'), its calculated value, and its percentage deviation from the golden ratio.
7.  For 'overlayLines', provide normalized coordinates (0.0 to 1.0) for significant golden ratio lines. If it's a side-view photo, return an empty array for overlayLines.
8.  Provide your response strictly in the specified JSON format. Do not include any text, markdown, or code block syntax outside of the JSON object.".

Record Request := mkRequest {
  model : string;
  contents : list Part;
  responseMimeType : string;
  responseSchema : Schema
}.

(** [response.text] is [undefined] when the reply carries no text. *)
Record Response := mkResponse { text : option string }.

(** What the function runs against: [process.env], the [FileReader] and
    the hosted model behind [ai.models.generateContent]. *)
Record Platform := mkPlatform {
  env : gmap string string;
  readAsDataURL : File -> Js.Settled string;
  generateContent : Request -> Js.Settled Response
}.

Definition configurationError : Js.Thrown :=
  Js.ErrorObject "API_KEY environment variable not set".

Definition inputRequired : Js.Thrown :=
  Js.ErrorObject "An image is required for analysis.".

Definition parseError : Js.Thrown :=
  Js.ErrorObject
    "Could not parse the analysis result from the AI. The response was not valid JSON.".

(** One run of [analyzeFace]: how its promise settles, and the requests
    it sent to the service, in order. The value it resolves with is what
    [JSON.parse] built; [as AnalysisResult] checks nothing. *)
Record Run := mkRun {
  outcome : Js.Settled Json.Value;
  requests : list Request
}.

(** The argument of [ai.models.generateContent]. *)
Definition requestFor (imagePart : Part) : Request :=
  {| model := "gemini-2.5-flash";
     contents := [TextPart prompt; imagePart];
     responseMimeType := "application/json";
     responseSchema := analysisSchema |}.

Definition analyzeFace (p : Platform) (image : option ImageFile) : Run :=
  if negb (Js.truthy (env p !! "API_KEY")) then
    {| outcome := Js.Rejected configurationError; requests := [] |}
  else
    match image with
    | None => {| outcome := Js.Rejected inputRequired; requests := [] |}
    | Some image =>
        match fileToGenerativePart (readAsDataURL p) image with
        | Js.Rejected e => {| outcome := Js.Rejected e; requests := [] |}
        | Js.Fulfilled imagePart =>
            let request := requestFor imagePart in
            match generateContent p request with
            | Js.Rejected e =>
                {| outcome := Js.Rejected e; requests := [request] |}
            | Js.Fulfilled response =>
                {| outcome :=
                     match text response with
                     | None => Js.Rejected parseError
                     | Some t =>
                         match Json.parse (Js.trim t) with
                         | Some result => Js.Fulfilled result
                         | None => Js.Rejected parseError
                         end
                     end;
                   requests := [request] |}
            end
        end
    end.

End GeminiService.

(* ===================================================================== *)
(** ** App.tsx: the application controller *)
(* ===================================================================== *)

Module App.
Import Types.

(** The four [useState] cells of the component. *)
Record State := mkState {
  image : option ImageFile;
  analysisResult : option AnalysisResult;
  appState : AppState;
  error : option string
}.

Definition initial : State :=
  {| image := None; analysisResult := None; appState := Idle; error := None |}.

Definition setImage (v : option ImageFile) (s : State) : State :=
  {| image := v; analysisResult := analysisResult s;
     appState := appState s; error := error s |}.

Definition setAnalysisResult (v : option AnalysisResult) (s : State) : State :=
  {| image := image s; analysisResult := v;
     appState := appState s; error := error s |}.

Definition setAppState (v : AppState) (s : State) : State :=
  {| image := image s; analysisResult := analysisResult s;
     appState := v; error := error s |}.

Definition setError (v : option string) (s : State) : State :=
  {| image := image s; analysisResult := analysisResult s;
     appState := appState s; error := v |}.

Definition acceptedTypes : list string :=
  ["image/jpeg"; "image/png"; "image/jpg"].

Definition unsupportedTypeMessage : string :=
  "Unsupported file type. Please upload a photo in JPG or PNG format.".

Definition handleImageUpload (f : File) (s : State) : State :=
  if negb (Js.includes acceptedTypes (type f)) then
    setAppState Error (setError (Some unsupportedTypeMessage) s)
  else
    setImage (Some {| file := f |}) (setAppState Idle (setError None s)).

Definition handleRemoveImage (s : State) : State :=
  setImage None s.

(** [handleAnalyze] up to its [await]: either the inline error and no
    call, or the Loading state together with the image handed to
    [analyzeFace]. *)
Definition handleAnalyze_begin (s : State) : State * option ImageFile :=
  match image s with
  | None => (setError (Some "Please upload an image to analyze.") s, None)
  | Some img => (setError None (setAppState Loading s), Some img)
  end.

(** [handleAnalyze] from the point where the awaited call settles: the
    [try] body on a result, the [catch] clause on a thrown value. *)
Definition handleAnalyze_settle
    (o : Js.Settled AnalysisResult) (s : State) : State :=
  match o with
  | Js.Fulfilled result =>
      if Js.present (Types.error result) && Js.truthy (errorMessage result) then
        setAppState Error (setError (errorMessage result) s)
      else
        setAppState Result (setAnalysisResult (Some result) s)
  | Js.Rejected err =>
      let errorMessage :=
        match err with
        | Js.ErrorObject message => message
        | Js.OtherValue _ => "An unknown error occurred during analysis."
        end in
      setAppState Error
        (setError
           (Some ("Unable to analyze. Please re-upload a clear image. Details: "
                  ++ errorMessage)) s)
  end.

(** The whole handler, the analysis client being any function from the
    image to the way its promise settles. *)
Definition handleAnalyze
    (analyzeFace : ImageFile -> Js.Settled AnalysisResult) (s : State) : State :=
  match handleAnalyze_begin s with
  | (s1, None) => s1
  | (s1, Some img) => handleAnalyze_settle (analyzeFace img) s1
  end.

Definition handleReset (s : State) : State :=
  setError None (setAppState Idle (setAnalysisResult None (setImage None s))).

(** What [renderContent] returns: the component shown inside the card.
    [Nothing] is the [null] that [analysisResult && ...] leaves when no
    result is retained. *)
Inductive View :=
| LoaderView
| ReportView (result : AnalysisResult) (image : option ImageFile)
| ErrorView (message : option string)
| UploaderView (image : option ImageFile) (isAnalyzeDisabled : bool)
| Nothing.

Definition renderContent (s : State) : View :=
  match appState s with
  | Loading => LoaderView
  | Result =>
      match analysisResult s with
      | Some result => ReportView result (image s)
      | None => Nothing
      end
  | Error => ErrorView (error s)
  | Idle => UploaderView (image s) (negb (Js.present (image s)))
  end.

(** What can happen to the component: a call of one of its handlers, or
    the settling of an analysis that [handleAnalyze] awaits. *)
Inductive Action :=
| Upload (f : File)
| RemoveImage
| Analyze
| Settle (o : Js.Settled AnalysisResult)
| Reset.

Definition step (a : Action) (s : State) : State :=
  match a with
  | Upload f => handleImageUpload f s
  | RemoveImage => handleRemoveImage s
  | Analyze => fst (handleAnalyze_begin s)
  | Settle o => handleAnalyze_settle o s
  | Reset => handleReset s
  end.

(** The state after the actions of [l], in order. *)
Definition run (l : list Action) (s : State) : State :=
  fold_left (fun s a => step a s) l s.

(** [analyzeFace(image)] as [handleAnalyze] awaits it, on a platform [p]:
    the parsed value is read through the interface [AnalysisResult], and
    [view] stands for that unchecked reading. *)
Definition analyzeWith (p : GeminiService.Platform)
    (view : Json.Value -> AnalysisResult) (image : ImageFile)
  : Js.Settled AnalysisResult :=
  match GeminiService.outcome (GeminiService.analyzeFace p (Some image)) with
  | Js.Fulfilled result => Js.Fulfilled (view result)
  | Js.Rejected e => Js.Rejected e
  end.

End App.

(* ===================================================================== *)
(** ** utils/pdfGenerator.ts: the report exporter *)
(* ===================================================================== *)

Module PdfGenerator.

(** An element, as far as the exporter is concerned: its inline style
    declaration, a finite map from property names to non-empty values. *)
Record HTMLElement := mkHTMLElement {
  id : string;
  style : gmap string string
}.

(** Reading a style property yields [''] when it is not set; assigning
    [''] removes it (CSSOM). *)
Definition getStyle (property : string) (el : HTMLElement) : string :=
  default "" (style el !! property).

Definition setStyle (property v : string) (el : HTMLElement) : HTMLElement :=
  {| id := id el;
     style := if String.eqb v "" then delete property (style el)
              else <[property := v]> (style el) |}.

(** A JavaScript number of the page geometry, in exact arithmetic: a
    rational, or what a division by zero leaves. *)
Inductive Num :=
| Finite (q : Q)
| PlusInfinity
| NaN.

(** [(a * b) / c] for non-negative integers [a], [c] and a positive
    rational [b]. *)
Definition mulDiv (a : N) (b : Q) (c : N) : Num :=
  if (c =? 0)%N then
    if (a =? 0)%N then NaN else PlusInfinity
  else Finite (inject_Z (Z.of_N a) * b / inject_Z (Z.of_N c))%Q.

(** [a > b] for a rational [a]. *)
Definition greater (a : Q) (b : Num) : bool :=
  match b with
  | Finite q => negb (Qle_bool a q)
  | PlusInfinity => false
  | NaN => false
  end.

Record Canvas := mkCanvas {
  width : N;
  height : N;
  toDataURL : string -> Js.Settled string
}.

Record Html2CanvasOptions := mkHtml2CanvasOptions {
  scale : Z;
  useCORS : bool;
  backgroundColor : string;
  logging : bool
}.

Record PdfOptions := mkPdfOptions {
  orientation : string;
  unit : string;
  format : Q * Num
}.

(** A [jsPDF] document: whether [addImage] and [save] throw. *)
Record Document := mkDocument {
  addImage : string -> string -> Q -> Q -> Q -> Num -> option Js.Thrown;
  save : string -> option Js.Thrown
}.

Record JsPdfNamespace := mkJsPdfNamespace {
  jsPDF : option (PdfOptions -> Js.Settled Document)
}.

(** The two globals of [window] the file declares; [None] is
    [undefined]. *)
Record Window := mkWindow {
  html2canvas : option (HTMLElement -> Html2CanvasOptions -> Js.Settled Canvas);
  jspdf : option JsPdfNamespace
}.

(** What a run does that the page, the user or the libraries see. *)
Inductive Event :=
| ConsoleError (message : string) (detail : option Js.Thrown)
| Alert (message : string)
| Timeout (milliseconds : Z)
| Rasterize (target : HTMLElement) (options : Html2CanvasOptions)
| NewDocument (options : PdfOptions)
| AddImage (imageData kind : string) (x y w : Q) (h : Num)
| Save (fileName : string).

(** The state a run threads: the element and the events so far. *)
Record Dom := mkDom {
  element : HTMLElement;
  events : list Event
}.

(** Statements that read and write the [Dom] and may throw. *)
Definition M (A : Type) : Type := Dom -> Js.Settled A * Dom.

Definition ret {A : Type} (a : A) : M A := fun d => (Js.Fulfilled a, d).

Definition bind {A B : Type} (m : M A) (k : A -> M B) : M B :=
  fun d =>
    match m d with
    | (Js.Fulfilled a, d') => k a d'
    | (Js.Rejected e, d') => (Js.Rejected e, d')
    end.

Definition tryCatch {A : Type} (body : M A) (handler : Js.Thrown -> M A) : M A :=
  fun d =>
    match body d with
    | (Js.Fulfilled a, d') => (Js.Fulfilled a, d')
    | (Js.Rejected e, d') => handler e d'
    end.

Definition emit (e : Event) : M Datatypes.unit :=
  fun d => (Js.Fulfilled tt, {| element := element d; events := events d ++ [e] |}).

Definition await {A : Type} (s : Js.Settled A) : M A := fun d => (s, d).

Definition throwing (o : option Js.Thrown) : M Datatypes.unit :=
  fun d =>
    match o with
    | Some e => (Js.Rejected e, d)
    | None => (Js.Fulfilled tt, d)
    end.

Definition readElement : M HTMLElement := fun d => (Js.Fulfilled (element d), d).

Definition assignStyle (property v : string) : M Datatypes.unit :=
  fun d =>
    (Js.Fulfilled tt,
     {| element := setStyle property v (element d); events := events d |}).

Notation "'let*' x ':=' m 'in' k" := (bind m (fun x => k))
  (at level 10, x name, m at level 200, k at level 200).

Definition pdfWidth : Q := 210.

Definition pdfHeight (canvas : Canvas) : Num :=
  mulDiv (height canvas) pdfWidth (width canvas).

(** The argument of [new jsPDF]. *)
Definition pdfOptions (canvas : Canvas) : PdfOptions :=
  {| orientation :=
       if greater pdfWidth (pdfHeight canvas) then "landscape" else "portrait";
     unit := "mm";
     format := (pdfWidth, pdfHeight canvas) |}.

Definition captureOptions : Html2CanvasOptions :=
  {| scale := 2; useCORS := true; backgroundColor := "#262626"; logging := false |}.

(** The body of [generatePdf] once the element and both libraries are
    known to be there. *)
Definition capture
    (rasterize : HTMLElement -> Html2CanvasOptions -> Js.Settled Canvas)
    (construct : PdfOptions -> Js.Settled Document) : M Datatypes.unit :=
  let* target := readElement in
  let originalBg := getStyle "backgroundColor" target in
  let* _ := assignStyle "backgroundColor" "#262626" in
  let* _ := emit (Timeout 200) in
  tryCatch
    (let* shown := readElement in
     let* _ := emit (Rasterize shown captureOptions) in
     let* canvas := await (rasterize shown captureOptions) in
     let* _ := assignStyle "backgroundColor" originalBg in
     let* imgData := await (toDataURL canvas "image/png") in
     let* _ := emit (NewDocument (pdfOptions canvas)) in
     let* pdf := await (construct (pdfOptions canvas)) in
     let* _ := emit (AddImage imgData "PNG" 0 0 pdfWidth (pdfHeight canvas)) in
     let* _ := throwing (addImage pdf imgData "PNG" 0 0 pdfWidth (pdfHeight canvas)) in
     let* _ := emit (Save "Fibonacci-Face-Analysis.pdf") in
     throwing (save pdf "Fibonacci-Face-Analysis.pdf"))
    (fun error =>
       let* _ := emit (ConsoleError "Error generating PDF:" (Some error)) in
       let* _ := assignStyle "backgroundColor" originalBg in
       emit (Alert "An error occurred while generating the PDF report. Please try again.")).

(** Both libraries, when [window] has them. *)
Definition libraries (w : Window)
  : option ((HTMLElement -> Html2CanvasOptions -> Js.Settled Canvas)
            * (PdfOptions -> Js.Settled Document)) :=
  match html2canvas w, jspdf w with
  | Some rasterize, Some namespace =>
      match jsPDF namespace with
      | Some construct => Some (rasterize, construct)
      | None => None
      end
  | _, _ => None
  end.

(** One run of [generatePdf]: how the promise settles, the element
    afterwards ([None] for a [null] argument) and the events, in order. *)
Record Run := mkRun {
  completion : Js.Settled Datatypes.unit;
  after : option HTMLElement;
  trace : list Event
}.

Definition generatePdf (w : Window) (el : option HTMLElement) : Run :=
  match el with
  | None =>
      {| completion := Js.Fulfilled tt;
         after := None;
         trace := [ConsoleError "PDF generation failed: provided element is null." None] |}
  | Some target =>
      match libraries w with
      | None =>
          {| completion := Js.Fulfilled tt;
             after := Some target;
             trace :=
               [ConsoleError
                  "PDF generation failed: html2canvas or jspdf library not found or not correctly loaded."
                  None;
                Alert
                  "Sorry, there was a problem loading the PDF generation library. Please try refreshing the page."] |}
      | Some (rasterize, construct) =>
          let (result, d) :=
            capture rasterize construct {| element := target; events := [] |} in
          {| completion := result; after := Some (element d); trace := events d |}
      end
  end.

End PdfGenerator.

(* ===================================================================== *)
(** ** components/AnalysisReport.tsx: the result renderer *)
(* ===================================================================== *)

Module AnalysisReport.
Import Types.

(** *** AnnotatedImage *)

Record Dimensions := mkDimensions { width : float; height : float }.

Definition noDimensions : Dimensions := {| width := 0; height := 0 |}.

(** [img.onload]: with the container mounted, the image is scaled to the
    container's width. *)
Definition onload (containerWidth : option float)
    (naturalWidth naturalHeight : float) (dimensions : Dimensions) : Dimensions :=
  match containerWidth with
  | Some containerWidth =>
      let scale := (containerWidth / naturalWidth)%float in
      {| width := containerWidth; height := (naturalHeight * scale)%float |}
  | None => dimensions
  end.

(** An SVG [<line>] of the overlay. *)
Record SvgLine := mkSvgLine {
  key : nat;
  line_x1 : float;
  line_y1 : float;
  line_x2 : float;
  line_y2 : float;
  stroke : string;
  strokeWidth : string;
  strokeDasharray : string
}.

Definition renderLine (dimensions : Dimensions) (index : nat) (line : OverlayLine)
  : SvgLine :=
  {| key := index;
     line_x1 := (x1 line * width dimensions)%float;
     line_y1 := (y1 line * height dimensions)%float;
     line_x2 := (x2 line * width dimensions)%float;
     line_y2 := (y2 line * height dimensions)%float;
     stroke := "rgba(220, 211, 196, 0.8)";
     strokeWidth := "2";
     strokeDasharray := "4" |}.

(** [lines.map((line, index) => <line ... />)] *)
Definition renderLines (dimensions : Dimensions) (lines : list OverlayLine)
  : list SvgLine :=
  imap (renderLine dimensions) lines.

(** *** The detailed ratios *)

Definition deviationColor (deviation : Z) : string :=
  if (deviation <=? 5)%Z then "text-green-400"
  else if (deviation <=? 15)%Z then "text-yellow-400"
  else "text-red-400".

(** A row of the table: the three [<span>]s of a [DetailedScore]. *)
Record DetailRow := mkDetailRow {
  row_key : nat;
  nameCell : string;
  valueCell : string;
  deviationClassName : string;
  deviationCell : string
}.

Definition renderDetail (index : nat) (item : DetailedScore) : DetailRow :=
  {| row_key := index;
     nameCell := ratioName item;
     valueCell := value item;
     deviationClassName :=
       "text-right font-semibold " ++ deviationColor (deviation item);
     deviationCell := pretty (deviation item) ++ "%" |}.

Definition renderDetails (detailedScores : list DetailedScore) : list DetailRow :=
  imap renderDetail detailedScores.

(** *** handleDownload *)

Record State := mkState {
  isDownloading : bool;
  showDetails : bool
}.

(** The handler from the click to its last statement, against the
    element [reportRef.current] holds ([None] when not mounted): the
    component's state afterwards and the exporter's run, if it ran. *)
Definition handleDownload (w : PdfGenerator.Window)
    (current : option PdfGenerator.HTMLElement) (s : State)
  : State * option PdfGenerator.Run :=
  match current with
  | None => (s, None)
  | Some target =>
      let shouldShowDetailsForPdf := showDetails s in
      let run := PdfGenerator.generatePdf w (Some target) in
      match PdfGenerator.completion run with
      | Js.Fulfilled _ =>
          ({| isDownloading := false; showDetails := shouldShowDetailsForPdf |},
           Some run)
      | Js.Rejected _ =>
          ({| isDownloading := true; showDetails := true |}, Some run)
      end
  end.

(** *** ProgressBar *)

(** The bar: its [width] state, the value the pending timer will set, and
    the score the effect last ran for. *)
Record Bar := mkBar {
  barWidth : Z;
  timer : option Z;
  effectScore : option Z
}.

Definition mounted : Bar := {| barWidth := 0; timer := None; effectScore := None |}.

(** A render with [score]: when the dependency has changed, the cleanup of
    the previous effect clears its timer and the effect sets a new one. *)
Definition render (score : Z) (b : Bar) : Bar :=
  match effectScore b with
  | Some previous =>
      if (previous =? score)%Z then b
      else {| barWidth := barWidth b; timer := Some score; effectScore := Some score |}
  | None => {| barWidth := barWidth b; timer := Some score; effectScore := Some score |}
  end.

(** The 100 ms are over: the pending timer, if any, sets the width. *)
Definition fire (b : Bar) : Bar :=
  match timer b with
  | Some score => {| barWidth := score; timer := None; effectScore := effectScore b |}
  | None => b
  end.

Inductive BarEvent :=
| Render (score : Z)
| Fire.

Definition barStep (e : BarEvent) (b : Bar) : Bar :=
  match e with
  | Render score => render score b
  | Fire => fire b
  end.

Definition barRun (l : list BarEvent) (b : Bar) : Bar :=
  fold_left (fun b e => barStep e b) l b.

(** *** handleShare *)

Record ShareData := mkShareData {
  title : string;
  text : string;
  url : string
}.

(** [navigator]: the Web Share API when the browser has it, and the
    clipboard. *)
Record Navigator := mkNavigator {
  share : option (ShareData -> Js.Settled Datatypes.unit);
  writeText : string -> Js.Settled Datatypes.unit
}.

Inductive ShareEvent :=
| NativeShare (data : ShareData)
| ClipboardWrite (content : string)
| LogError (message : string) (detail : Js.Thrown)
| SetShareText (label : string)
| SetShareTextAfter (milliseconds : Z) (label : string).

Definition shareData (origin : string) (overallScore : Z) : ShareData :=
  {| title := "My Fibonacci Face Analysis";
     text := "I scored " ++ pretty overallScore
             ++ "% on the Golden Ratio with the Fibonacci Face Analyzer! ✨ See how you measure up.";
     url := origin |}.

Definition newline : string := String "010" "".

(** The handler, as what it does in order. *)
Definition handleShare (origin : string) (overallScore : Z) (navigator : Navigator)
  : list ShareEvent :=
  let data := shareData origin overallScore in
  match share navigator with
  | Some native =>
      NativeShare data
      :: match native data with
         | Js.Fulfilled _ => []
         | Js.Rejected error => [LogError "Error sharing:" error]
         end
  | None =>
      let content := text data ++ newline ++ url data in
      ClipboardWrite content
      :: match writeText navigator content with
         | Js.Fulfilled _ =>
             [SetShareText "Copied!"; SetShareTextAfter 2000 "Share"]
         | Js.Rejected error =>
             [LogError "Error copying to clipboard:" error;
              SetShareText "Failed!"; SetShareTextAfter 2000 "Share"]
         end
  end.

(** The label of the button once the events of [l] are over. *)
Definition labelAfter (l : list ShareEvent) (label : string) : string :=
  fold_left
    (fun current e =>
       match e with
       | SetShareText next => next
       | SetShareTextAfter _ next => next
       | _ => current
       end)
    l label.

End AnalysisReport.

(* ===================================================================== *)
(** ** components/Loader.tsx *)
(* ===================================================================== *)

Module Loader.

Definition messages : list string :=
  [ "Detecting facial landmarks...";
    "Calculating proportions...";
    "Comparing to the Golden Ratio...";
    "Generating your aesthetic score...";
    "Finalizing your report..." ].

(** The update the interval applies every 2500 ms. *)
Definition next (prevIndex : nat) : nat :=
  (prevIndex + 1) mod length messages.

(** [messageIndex] after [ticks] ticks of the interval. *)
Definition messageIndex (ticks : nat) : nat := Nat.iter ticks next 0%nat.

(** [messages[messageIndex]], [None] for [undefined]. *)
Definition message (ticks : nat) : option string :=
  messages !! messageIndex ticks.

End Loader.

(* ===================================================================== *)
(** ** components/CameraView.tsx *)
(* ===================================================================== *)

Module CameraView.
Import Types.

(** What [getUserMedia] rejects with: a [DOMException] of some name, or
    anything else. *)
Inductive Failure :=
| DOMException (name : string)
| OtherFailure.

(** A stream, by the identifiers of its tracks. *)
Record MediaStream := mkMediaStream { getTracks : list nat }.

Definition failureMessage (err : Failure) : string :=
  match err with
  | DOMException name =>
      if String.eqb name "NotAllowedError" then
        "Camera access was denied. Please allow camera permission in your browser's site settings and try again."
      else if String.eqb name "NotFoundError" then
        "No camera found on this device. Please make sure a camera is connected and enabled."
      else if String.eqb name "NotReadableError" then
        "The camera could not be started. It might be in use by another app, or there could be a hardware error."
      else if String.eqb name "OverconstrainedError" then
        "The available camera does not support the required settings."
      else
        "Could not access the camera. Please check permissions and ensure it's not in use by another application."
  | OtherFailure =>
      "An unexpected error occurred while trying to access the camera."
  end.

(** The component and its effect: the two state cells, the effect's
    [activeStream], whether the component is still mounted (updates of an
    unmounted component are dropped), and the tracks stopped so far. *)
Record State := mkState {
  stream : option MediaStream;
  error : option string;
  activeStream : option MediaStream;
  isMounted : bool;
  stopped : list nat
}.

Definition initial : State :=
  {| stream := None; error := None; activeStream := None;
     isMounted := true; stopped := [] |}.

(** [startCamera] from the point where [getUserMedia] settles. *)
Definition started (outcome : Failure + MediaStream) (s : State) : State :=
  match outcome with
  | inr mediaStream =>
      {| stream := if isMounted s then Some mediaStream else stream s;
         error := if isMounted s then None else error s;
         activeStream := Some mediaStream;
         isMounted := isMounted s;
         stopped := stopped s |}
  | inl err =>
      {| stream := stream s;
         error := if isMounted s then Some (failureMessage err) else error s;
         activeStream := activeStream s;
         isMounted := isMounted s;
         stopped := stopped s |}
  end.

(** The cleanup of the effect, run when the component unmounts. *)
Definition unmount (s : State) : State :=
  {| stream := stream s;
     error := error s;
     activeStream := activeStream s;
     isMounted := false;
     stopped :=
       stopped s ++ match activeStream s with
                    | Some active => getTracks active
                    | None => []
                    end |}.

(** [disabled={!stream || !!error}] of the capture button. *)
Definition captureDisabled (s : State) : bool :=
  negb (Js.present (stream s)) || Js.truthy (error s).

(** [handleCapture]: the file handed to [onCapture], if any. The video
    element is rendered, and [videoRef.current] set, only while there is
    no error; [blob] is what [canvas.toBlob] passes to its callback and
    [now] is [Date.now()]. *)
Definition handleCapture (now : Z) (blob : option string) (s : State) : option File :=
  if Js.truthy (error s) || negb (Js.present (stream s)) then None
  else
    match blob with
    | Some content =>
        Some {| name := "capture-" ++ pretty now ++ ".jpg";
                type := "image/jpeg";
                payload := content |}
    | None => None
    end.

End CameraView.

(* ===================================================================== *)
(** ** components/ImageUploader.tsx *)
(* ===================================================================== *)

Module ImageUploader.
Import Types.

Record State := mkState { isCameraOpen : bool }.

(** [handleCapture], [onImageUpload] being the controller's
    [handleImageUpload]: the controller and the uploader afterwards. *)
Definition handleCapture (f : File) (parent : App.State) (s : State)
  : App.State * State :=
  (App.handleImageUpload f parent, {| isCameraOpen := false |}).

(** [handleFileChange] of the upload box, [files] being
    [event.target.files]. *)
Definition handleFileChange (files : list File) (parent : App.State) : App.State :=
  match files with
  | f :: _ => App.handleImageUpload f parent
  | [] => parent
  end.

(** Whether [handleBoxKeyDown] opens the file picker. *)
Definition handleBoxKeyDown (image : option ImageFile) (key : string) : bool :=
  negb (Js.present image) && (String.eqb key "Enter" || String.eqb key " ").

(** Whether [handleBoxClick] opens the file picker. *)
Definition handleBoxClick (image : option ImageFile) : bool :=
  negb (Js.present image).

End ImageUploader.

(* ===================================================================== *)
(** ** Sample inputs *)
(* ===================================================================== *)

Module Samples.
Import Types.

Definition portrait_jpeg : File :=
  {| name := "portrait.jpg"; type := "image/jpeg"; payload := "JFIF" |}.

Definition animation_gif : File :=
  {| name := "animation.gif"; type := "image/gif"; payload := "GIF89a" |}.

(** The controller waiting for the analysis of [portrait_jpeg]. *)
Definition loading : App.State :=
  {| App.image := Some {| file := portrait_jpeg |};
     App.analysisResult := None;
     App.appState := Loading;
     App.error := None |}.

Definition multipleFaces : AnalysisResult :=
  {| overallScore := 0; feedback := ""; featureScores := [];
     detailedScores := []; overlayLines := [];
     error := Some MULTIPLE_FACES;
     errorMessage :=
       Some "Please upload a clear photo with only one visible face." |}.

(** An error kind and no message to go with it. *)
Definition noFaceWithoutMessage : AnalysisResult :=
  {| overallScore := 0; feedback := ""; featureScores := [];
     detailedScores := []; overlayLines := [];
     error := Some NO_FACE;
     errorMessage := None |}.

Definition balanced : AnalysisResult :=
  {| overallScore := 82; feedback := "Balanced proportions.";
     featureScores := [ {| feature := "Facial Symmetry"; score := 90 |} ];
     detailedScores :=
       [ {| ratioName := "Face Width / Height"; value := "1.62"; deviation := 1 |} ];
     overlayLines := [];
     error := None;
     errorMessage := None |}.

(** The controller showing [balanced] for [portrait_jpeg]. *)
Definition showingResult : App.State :=
  {| App.image := Some {| file := portrait_jpeg |};
     App.analysisResult := Some balanced;
     App.appState := Result;
     App.error := None |}.


Definition displayed : AnalysisReport.Dimensions :=
  {| AnalysisReport.width := 400; AnalysisReport.height := 300 |}.

Definition threeRatios : list DetailedScore :=
  [ {| ratioName := "Face Width / Height"; value := "1.70"; deviation := 5 |};
    {| ratioName := "Nose Length / Philtrum-Chin Length"; value := "1.52"; deviation := 6 |};
    {| ratioName := "Forehead Height / Face Width"; value := "1.36"; deviation := 16 |} ].

(** *** The analysis service *)

Definition quoted (s : string) : string :=
  String Json.quote (s ++ String Json.quote "").

(** A platform with a credential, a working file reader and a service
    that answers every request with [reply]. *)
Definition replying (reply : option string) : GeminiService.Platform :=
  {| GeminiService.env := {[ "API_KEY" := "secret" ]};
     GeminiService.readAsDataURL :=
       fun _ => Js.Fulfilled "data:image/jpeg;base64,SkZJRg==";
     GeminiService.generateContent :=
       fun _ => Js.Fulfilled {| GeminiService.text := reply |} |}.

(** The well-formed success response of the specification, as text. *)
Definition balancedText : string :=
  "{" ++ quoted "overallScore" ++ ": 82, "
      ++ quoted "feedback" ++ ": " ++ quoted "Balanced proportions." ++ ", "
      ++ quoted "featureScores" ++ ": [{"
      ++ quoted "feature" ++ ": " ++ quoted "Facial Symmetry" ++ ", "
      ++ quoted "score" ++ ": 90}], "
      ++ quoted "detailedScores" ++ ": [{"
      ++ quoted "ratioName" ++ ": " ++ quoted "Face Width / Height" ++ ", "
      ++ quoted "value" ++ ": " ++ quoted "1.62" ++ ", "
      ++ quoted "deviation" ++ ": 1}], "
      ++ quoted "overlayLines" ++ ": []}
".

Definition balancedValue : Json.Value :=
  Json.Object
    [ ("overallScore", Json.Number {| Json.mantissa := 82; Json.exponent := 0 |});
      ("feedback", Json.Str "Balanced proportions.");
      ("featureScores",
        Json.Array
          [ Json.Object
              [ ("feature", Json.Str "Facial Symmetry");
                ("score", Json.Number {| Json.mantissa := 90; Json.exponent := 0 |}) ] ]);
      ("detailedScores",
        Json.Array
          [ Json.Object
              [ ("ratioName", Json.Str "Face Width / Height");
                ("value", Json.Str "1.62");
                ("deviation", Json.Number {| Json.mantissa := 1; Json.exponent := 0 |}) ] ]);
      ("overlayLines", Json.Array []) ].

(** *** The report exporter *)

(** The report element, with two inline style properties. *)
Definition report : PdfGenerator.HTMLElement :=
  {| PdfGenerator.id := "report";
     PdfGenerator.style :=
       <["backgroundColor" := "rgb(38, 38, 38)"]> {[ "opacity" := "1" ]} |}.

Definition noLibraries : PdfGenerator.Window :=
  {| PdfGenerator.html2canvas := None; PdfGenerator.jspdf := None |}.

Definition workingDocument : PdfGenerator.Document :=
  {| PdfGenerator.addImage := fun _ _ _ _ _ _ => None;
     PdfGenerator.save := fun _ => None |}.

Definition loaded
    (rasterize : PdfGenerator.HTMLElement -> PdfGenerator.Html2CanvasOptions
                 -> Js.Settled PdfGenerator.Canvas)
  : PdfGenerator.Window :=
  {| PdfGenerator.html2canvas := Some rasterize;
     PdfGenerator.jspdf :=
       Some {| PdfGenerator.jsPDF := Some (fun _ => Js.Fulfilled workingDocument) |} |}.

Definition failingRasterizer : PdfGenerator.Window :=
  loaded (fun _ _ => Js.Rejected (Js.ErrorObject "Unable to find element in cloned iframe")).

Definition bitmap (w h : N) : PdfGenerator.Canvas :=
  {| PdfGenerator.width := w;
     PdfGenerator.height := h;
     PdfGenerator.toDataURL := fun _ => Js.Fulfilled "data:image/png;base64,iVBORw0KGgo=" |}.

(** Both libraries at work, the capture being 1600 by 2000 pixels. *)
Definition working : PdfGenerator.Window :=
  loaded (fun _ _ => Js.Fulfilled (bitmap 1600 2000)).

End Samples.

(* ===================================================================== *)
(** ** The application controller, proved *)
(* ===================================================================== *)

Section Controller.
Import Types.

Lemma includes_spec (l : list string) (x : string) :
  Js.includes l x = true <-> In x l.
Proof.
  unfold Js.includes. rewrite existsb_exists. split.
  - intros (y & Hin & Heq). apply String.eqb_eq in Heq. now subst.
  - intros Hin. exists x. split; [assumption | apply String.eqb_refl].
Qed.

Lemma truthy_spec (o : option string) :
  Js.truthy o = true <-> exists v, o = Some v /\ v <> "".
Proof.
  destruct o as [v|]; simpl.
  - rewrite negb_true_iff, String.eqb_neq. split.
    + intros Hne. exists v. now split.
    + intros (w & [= <-] & Hne). exact Hne.
  - split; [discriminate | intros (w & Heq & _); discriminate].
Qed.

Lemma accepted_iff (t : string) :
  Js.includes App.acceptedTypes t = true
  <-> t = "image/jpeg" \/ t = "image/png" \/ t = "image/jpg".
Proof.
  rewrite includes_spec. unfold App.acceptedTypes. simpl. intuition congruence.
Qed.

End Controller.

(** The other transitions of [handleAnalyze]. *)
Lemma handleAnalyze_without_image
    (analyzeFace : Types.ImageFile -> Js.Settled Types.AnalysisResult)
    (s : App.State) :
  App.image s = None ->
  App.handleAnalyze analyzeFace s
  = App.setError (Some "Please upload an image to analyze.") s.
Proof. intros H. unfold App.handleAnalyze, App.handleAnalyze_begin. now rewrite H. Qed.

Lemma handleAnalyze_begin_loading (s : App.State) (img : Types.ImageFile) :
  App.image s = Some img ->
  exists s1 : App.State,
    App.handleAnalyze_begin s = (s1, Some img)
    /\ App.appState s1 = Types.Loading
    /\ App.error s1 = None
    /\ App.image s1 = Some img.
Proof.
  intros H. unfold App.handleAnalyze_begin. rewrite H.
  eexists. split; [reflexivity |]. simpl. now rewrite H.
Qed.

Lemma handleAnalyze_settle_success (s : App.State) (r : Types.AnalysisResult) :
  Types.error r = None ->
  App.handleAnalyze_settle (Js.Fulfilled r) s
  = App.setAppState Types.Result (App.setAnalysisResult (Some r) s).
Proof. intros H. simpl. now rewrite H. Qed.

Lemma handleAnalyze_settle_thrown (s : App.State) (message : string) :
  App.handleAnalyze_settle (Js.Rejected (Js.ErrorObject message)) s
  = App.setAppState Types.Error
      (App.setError
         (Some ("Unable to analyze. Please re-upload a clear image. Details: "
                ++ message)) s).
Proof. reflexivity. Qed.

(** C1, as the code has it: when the analysis client's result, received in
    Loading, has its error kind set and carries a non-empty error message,
    the controller moves to Error and displays exactly that message; the
    image and the retained result are left as they were. *)
Theorem handleAnalyze_settle_service_error :
  forall (s : App.State) (r : Types.AnalysisResult)
         (kind : Types.ErrorKind) (message : string),
    App.appState s = Types.Loading ->
    Types.error r = Some kind ->
    Types.errorMessage r = Some message ->
    message <> "" ->
    let s' := App.handleAnalyze_settle (Js.Fulfilled r) s in
    App.appState s' = Types.Error
    /\ App.error s' = Some message
    /\ App.image s' = App.image s
    /\ App.analysisResult s' = App.analysisResult s.
Proof.
  intros s r kind message _ Hkind Hmessage Hne. simpl.
  rewrite Hkind, Hmessage. simpl.
  apply String.eqb_neq in Hne. rewrite Hne. simpl. repeat split.
Qed.

(** The MULTIPLE_FACES response of the specification: Error, showing
    exactly its message. *)
Lemma handleAnalyze_settle_multiple_faces :
  let s' := App.handleAnalyze_settle (Js.Fulfilled Samples.multipleFaces) Samples.loading in
  App.appState s' = Types.Error
  /\ App.error s' = Some "Please upload a clear photo with only one visible face."
  /\ App.image s' = App.image Samples.loading
  /\ App.analysisResult s' = App.analysisResult Samples.loading.
Proof.
  apply (handleAnalyze_settle_service_error Samples.loading Samples.multipleFaces
           Types.MULTIPLE_FACES
           "Please upload a clear photo with only one visible face.").
  - reflexivity.
  - reflexivity.
  - reflexivity.
  - discriminate.
Defined.

(** C1 as stated fails: a result whose error kind is set but which has no
    error message takes the controller from Loading to Result, not Error. *)
Lemma handleAnalyze_settle_error_kind_alone :
  App.appState Samples.loading = Types.Loading
  /\ Types.error Samples.noFaceWithoutMessage = Some Types.NO_FACE
  /\ App.appState
       (App.handleAnalyze_settle (Js.Fulfilled Samples.noFaceWithoutMessage)
          Samples.loading) = Types.Result
  /\ App.appState
       (App.handleAnalyze_settle (Js.Fulfilled Samples.noFaceWithoutMessage)
          Samples.loading) <> Types.Error.
Proof. repeat split. discriminate. Qed.

(** C3: a file of type image/jpeg, image/png or image/jpg is attached as
    the image, with its own MIME type, and the controller is in Idle with
    no error; a file of any other type is not attached (the image is what
    it was) and the controller is in Error with the fixed message. *)
Theorem handleImageUpload_by_type :
  forall (f : Types.File) (s : App.State),
    let s' := App.handleImageUpload f s in
    (Types.type f = "image/jpeg" \/ Types.type f = "image/png"
       \/ Types.type f = "image/jpg" ->
     App.image s' = Some {| Types.file := f |}
     /\ (exists img, App.image s' = Some img
                     /\ Types.type (Types.file img) = Types.type f)
     /\ App.appState s' = Types.Idle
     /\ App.error s' = None)
    /\ (~ (Types.type f = "image/jpeg" \/ Types.type f = "image/png"
             \/ Types.type f = "image/jpg") ->
        App.image s' = App.image s
        /\ App.appState s' = Types.Error
        /\ App.error s' =
             Some "Unsupported file type. Please upload a photo in JPG or PNG format.").
Proof.
  intros f s. simpl. unfold App.handleImageUpload.
  destruct (Js.includes App.acceptedTypes (Types.type f)) eqn:Hacc; simpl.
  - split.
    + intros _. repeat split. eexists. split; reflexivity.
    + intros Hno. exfalso. apply Hno. now apply accepted_iff.
  - split.
    + intros Hyes. apply accepted_iff in Hyes. congruence.
    + intros _. repeat split.
Qed.

Lemma handleImageUpload_by_type_on_samples :
  (App.image (App.handleImageUpload Samples.portrait_jpeg App.initial)
     = Some {| Types.file := Samples.portrait_jpeg |}
   /\ App.appState (App.handleImageUpload Samples.portrait_jpeg App.initial) = Types.Idle
   /\ App.error (App.handleImageUpload Samples.portrait_jpeg App.initial) = None)
  /\ (App.image (App.handleImageUpload Samples.animation_gif App.initial) = None
      /\ App.appState (App.handleImageUpload Samples.animation_gif App.initial) = Types.Error
      /\ App.error (App.handleImageUpload Samples.animation_gif App.initial)
           = Some "Unsupported file type. Please upload a photo in JPG or PNG format.").
Proof.
  split.
  - destruct (handleImageUpload_by_type Samples.portrait_jpeg App.initial) as [Hyes _].
    destruct Hyes as (Himg & _ & Hst & Herr).
    + left. reflexivity.
    + exact (conj Himg (conj Hst Herr)).
  - destruct (handleImageUpload_by_type Samples.animation_gif App.initial) as [_ Hno].
    apply Hno. intros [H | [H | H]]; discriminate H.
Defined.

(** C6: reset yields Idle with no image, no analysis result and no error
    message, whatever the state it is invoked in, Result and Error among
    them. *)
Theorem handleReset_clears :
  forall s : App.State,
    App.handleReset s = App.initial
    /\ App.appState (App.handleReset s) = Types.Idle
    /\ App.image (App.handleReset s) = None
    /\ App.analysisResult (App.handleReset s) = None
    /\ App.error (App.handleReset s) = None.
Proof. intros s. repeat split. Qed.

(** C10: a rejected upload leaves the attached image (and the retained
    result) as it was, while the controller moves to Error with the
    unsupported-type message. *)
Theorem handleImageUpload_rejected_keeps_image :
  forall (f : Types.File) (s : App.State),
    Js.includes App.acceptedTypes (Types.type f) = false ->
    App.image (App.handleImageUpload f s) = App.image s
    /\ App.analysisResult (App.handleImageUpload f s) = App.analysisResult s
    /\ App.appState (App.handleImageUpload f s) = Types.Error
    /\ App.error (App.handleImageUpload f s) = Some App.unsupportedTypeMessage.
Proof.
  intros f s Hrej. unfold App.handleImageUpload. rewrite Hrej. simpl. repeat split.
Qed.

Lemma handleImageUpload_rejected_keeps_portrait :
  App.image (App.handleImageUpload Samples.animation_gif Samples.showingResult)
    = Some {| Types.file := Samples.portrait_jpeg |}
  /\ App.analysisResult (App.handleImageUpload Samples.animation_gif Samples.showingResult)
       = Some Samples.balanced
  /\ App.appState (App.handleImageUpload Samples.animation_gif Samples.showingResult)
       = Types.Error
  /\ App.error (App.handleImageUpload Samples.animation_gif Samples.showingResult)
       = Some App.unsupportedTypeMessage.
Proof.
  apply (handleImageUpload_rejected_keeps_image Samples.animation_gif Samples.showingResult).
  reflexivity.
Defined.

(* ===================================================================== *)
(** ** The result renderer, proved *)
(* ===================================================================== *)

Section Renderer.
Import Types AnalysisReport.

Lemma deviationColor_good (d : Z) :
  (d <= 5)%Z -> deviationColor d = "text-green-400".
Proof.
  intros H. unfold deviationColor.
  destruct (Z.leb_spec d 5); [reflexivity | lia].
Qed.

Lemma deviationColor_warn (d : Z) :
  (5 < d <= 15)%Z -> deviationColor d = "text-yellow-400".
Proof.
  intros H. unfold deviationColor.
  destruct (Z.leb_spec d 5); [lia |].
  destruct (Z.leb_spec d 15); [reflexivity | lia].
Qed.

Lemma deviationColor_bad (d : Z) :
  (15 < d)%Z -> deviationColor d = "text-red-400".
Proof.
  intros H. unfold deviationColor.
  destruct (Z.leb_spec d 5); [lia |].
  destruct (Z.leb_spec d 15); [lia | reflexivity].
Qed.

Lemma renderDetails_lookup (scores : list DetailedScore) (i : nat) :
  renderDetails scores !! i = renderDetail i <$> scores !! i.
Proof. unfold renderDetails. apply list_lookup_imap. Qed.


Lemma renderLines_length (d : Dimensions) (lines : list OverlayLine) :
  length (renderLines d lines) = length lines.
Proof. unfold renderLines. apply length_imap. Qed.

End Renderer.

(** C4: the color of a detail row is a function of the row's deviation
    alone: good (green) for d <= 5, warn (yellow) for 5 < d <= 15 and bad
    (red) for d > 15. *)
Theorem detail_row_band :
  forall (detailedScores : list Types.DetailedScore) (i : nat)
         (item : Types.DetailedScore),
    detailedScores !! i = Some item ->
    exists row : AnalysisReport.DetailRow,
      AnalysisReport.renderDetails detailedScores !! i = Some row
      /\ AnalysisReport.deviationClassName row
           = "text-right font-semibold "
               ++ AnalysisReport.deviationColor (Types.deviation item)
      /\ ((Types.deviation item <= 5)%Z ->
          AnalysisReport.deviationColor (Types.deviation item) = "text-green-400")
      /\ ((5 < Types.deviation item <= 15)%Z ->
          AnalysisReport.deviationColor (Types.deviation item) = "text-yellow-400")
      /\ ((15 < Types.deviation item)%Z ->
          AnalysisReport.deviationColor (Types.deviation item) = "text-red-400").
Proof.
  intros scores i item Hi.
  exists (AnalysisReport.renderDetail i item). split.
  - rewrite renderDetails_lookup, Hi. reflexivity.
  - split; [reflexivity |].
    split; [apply deviationColor_good |].
    split; [apply deviationColor_warn | apply deviationColor_bad].
Qed.

(** The row of deviation 6 is in the warn band. *)
Lemma detail_row_band_of_six :
  exists row : AnalysisReport.DetailRow,
    AnalysisReport.renderDetails Samples.threeRatios !! 1%nat = Some row
    /\ AnalysisReport.deviationClassName row
         = "text-right font-semibold text-yellow-400".
Proof.
  destruct (detail_row_band Samples.threeRatios 1
              {| Types.ratioName := "Nose Length / Philtrum-Chin Length";
                 Types.value := "1.52"; Types.deviation := 6 |} eq_refl)
    as (row & Hrow & Hclass & _ & Hwarn & _).
  exists row. split; [exact Hrow |].
  rewrite Hclass, Hwarn; [reflexivity | simpl; lia].
Defined.

(** The boundary values of the specification. *)
Example deviationColor_boundaries :
  AnalysisReport.deviationColor 5 = "text-green-400"
  /\ AnalysisReport.deviationColor 6 = "text-yellow-400"
  /\ AnalysisReport.deviationColor 15 = "text-yellow-400"
  /\ AnalysisReport.deviationColor 16 = "text-red-400"
  /\ map AnalysisReport.deviationClassName
       (AnalysisReport.renderDetails Samples.threeRatios)
     = [ "text-right font-semibold text-green-400";
         "text-right font-semibold text-yellow-400";
         "text-right font-semibold text-red-400" ]
  /\ map AnalysisReport.deviationCell
       (AnalysisReport.renderDetails Samples.threeRatios)
     = [ "5%"; "6%"; "16%" ].
Proof. repeat split. Qed.



(** The displayed size an 800 by 600 image gets in a container 400 wide. *)
Example onload_scales_to_container :
  AnalysisReport.onload (Some 400%float) 800 600 AnalysisReport.noDimensions
  = Samples.displayed.
Proof. reflexivity. Qed.

(* ===================================================================== *)
(** ** JSON.parse, proved total in its fuel *)
(* ===================================================================== *)

Section Parser.
Import Json.

Lemma skipWhitespace_length (s : string) :
  String.length (skipWhitespace s) <= String.length s.
Proof.
  induction s as [| c s IH]; simpl; [lia |].
  destruct (isWhitespace c); simpl; lia.
Qed.

Lemma expect_length (c : ascii) (s r : string) :
  expect c s = Some r -> String.length s = S (String.length r).
Proof.
  destruct s as [| a s]; simpl; [discriminate |].
  destruct (Ascii.eqb a c); [| discriminate]. now intros [= ->].
Qed.

Lemma digits_length (s : string) :
  forall acc count, String.length (digits acc count s).2 <= String.length s.
Proof.
  induction s as [| c s IH]; intros acc count; simpl; [lia |].
  destruct (isDigit c); simpl; [| lia]. specialize (IH (10 * acc + digitValue c)%Z (count + 1)%Z). lia.
Qed.

Lemma dropPrefix_length (p s r : string) :
  Js.dropPrefix p s = Some r -> String.length s = String.length p + String.length r.
Proof.
  revert s. induction p as [| a p IH]; intros s; simpl.
  - now intros [= ->].
  - destruct s as [| b s]; [discriminate |].
    destruct (Ascii.eqb a b); [| discriminate].
    intros H. apply IH in H. simpl. lia.
Qed.

Lemma dropAny_length (ps : list string) (s r : string) :
  Forall (fun p => p <> "") ps ->
  Js.dropAny ps s = Some r -> String.length r < String.length s.
Proof.
  induction 1 as [| p ps Hp _ IH]; simpl; [discriminate |].
  destruct (Js.dropPrefix p s) as [r' |] eqn:Hdrop; [| exact IH].
  intros [= <-]. apply dropPrefix_length in Hdrop.
  destruct p; [congruence | simpl in Hdrop; lia].
Qed.

(** [dropWhile] stops for want of a prefix to drop, not for want of fuel,
    when it is given the length of the text. *)
Lemma dropWhile_exhausts (ps : list string) :
  Forall (fun p => p <> "") ps ->
  forall (n : nat) (s : string),
    String.length s <= n -> Js.dropAny ps (Js.dropWhile n ps s) = None.
Proof.
  intros Hps. induction n as [| n IH]; intros s Hlen; simpl.
  - destruct (Js.dropAny ps s) as [r |] eqn:Hdrop; [| reflexivity].
    apply dropAny_length in Hdrop; [lia | exact Hps].
  - destruct (Js.dropAny ps s) as [r |] eqn:Hdrop; [| exact Hdrop].
    apply IH. apply dropAny_length in Hdrop; [lia | exact Hps].
Qed.

Lemma whiteSpace_nonempty : Forall (fun p => p <> "") Js.whiteSpace.
Proof. vm_compute. repeat constructor; discriminate. Qed.

(** What [trimStart] returns starts with no white space. *)
Lemma trimStart_trimmed (s : string) :
  Js.dropAny Js.whiteSpace (Js.trimStart s) = None.
Proof.
  unfold Js.trimStart. apply dropWhile_exhausts; [apply whiteSpace_nonempty | lia].
Qed.

Lemma stringUnits_length (s : string) :
  forall us r, stringUnits s = Some (us, r) -> String.length r < String.length s.
Proof.
  induction s as [s IH] using (well_founded_induction
                                 (well_founded_ltof _ String.length)).
  unfold ltof in IH. intros us r.
  destruct s as [| c rest]; simpl; [discriminate |].
  destruct (Ascii.eqb c quote).
  { intros [= _ ->]. lia. }
  destruct (Ascii.eqb c backslash).
  - destruct rest as [| e rest1]; [discriminate |].
    destruct (Ascii.eqb e "u").
    + destruct rest1 as [| h1 [| h2 [| h3 [| h4 rest2]]]]; try discriminate.
      destruct (hex4 h1 h2 h3 h4); [| discriminate].
      destruct (stringUnits rest2) as [[us' r'] |] eqn:Hrec; [| discriminate].
      intros [= _ ->]. apply IH in Hrec; simpl in *; lia.
    + destruct (simpleEscape e); [| discriminate].
      destruct (stringUnits rest1) as [[us' r'] |] eqn:Hrec; [| discriminate].
      intros [= _ ->]. apply IH in Hrec; simpl in *; lia.
  - destruct (N_of_ascii c <? 32)%N; [discriminate |].
    destruct (stringUnits rest) as [[us' r'] |] eqn:Hrec; [| discriminate].
    intros [= _ ->]. apply IH in Hrec; simpl in *; lia.
Qed.

Lemma parseString_length (s str r : string) :
  parseString s = Some (str, r) -> String.length r < String.length s.
Proof.
  unfold parseString.
  destruct (stringUnits s) as [[us r'] |] eqn:Hunits; [| discriminate].
  intros [= _ <-]. eapply stringUnits_length, Hunits.
Qed.

Lemma parseLiteral_length (word : string) (v w : Value) (s r : string) :
  parseLiteral word v s = Some (w, r) ->
  String.length s = String.length word + String.length r.
Proof.
  unfold parseLiteral.
  destruct (Js.dropPrefix word s) as [rest |] eqn:Hdrop; [| discriminate].
  intros [= _ <-]. now apply dropPrefix_length.
Qed.

Lemma integerPart_length (c : ascii) (r0 : string) :
  isDigit c = true ->
  String.length (integerPart c r0).2 <= String.length r0.
Proof.
  intros Hdigit. unfold integerPart.
  destruct (Ascii.eqb c "0"); simpl; [lia |]. rewrite Hdigit.
  pose proof (digits_length r0 (10 * 0 + digitValue c)%Z (0 + 1)%Z) as H.
  destruct (digits _ _ r0) as [[v n] r]. simpl in *. lia.
Qed.

Lemma fractionPart_length (int : Z) (rest : string) m scale rest1 :
  fractionPart int rest = Some (m, scale, rest1) ->
  String.length rest1 <= String.length rest.
Proof.
  unfold fractionPart.
  destruct (expect "." rest) as [r1 |] eqn:Hpoint.
  - apply expect_length in Hpoint.
    pose proof (digits_length r1 int 0%Z) as H.
    destruct (digits int 0 r1) as [[v n] r2].
    destruct (n =? 0)%Z; [discriminate |].
    intros [= _ _ <-]. simpl in *. lia.
  - intros [= _ _ <-]. lia.
Qed.

Lemma exponentPart_length (signed scale : Z) (rest1 : string) d r :
  exponentPart signed scale rest1 = Some (d, r) ->
  String.length r <= String.length rest1.
Proof.
  unfold exponentPart.
  assert (Hmarked : forall r0 : string,
            String.length r0 <= String.length rest1 ->
            (let '(esign, r3) :=
               match expect "+" r0 with
               | Some r' => (1%Z, r')
               | None =>
                   match expect "-" r0 with
                   | Some r' => ((-1)%Z, r')
                   | None => (1%Z, r0)
                   end
               end in
             let '(e, n, r4) := digits 0 0 r3 in
             if (n =? 0)%Z then None
             else Some ({| mantissa := signed; exponent := esign * e - scale |}, r4))
            = Some (d, r) ->
            String.length r <= String.length rest1).
  { intros r0 Hr0.
    assert (Hsigned : forall (esign : Z) (r3 : string),
              String.length r3 <= String.length r0 ->
              (let '(e, n, r4) := digits 0 0 r3 in
               if (n =? 0)%Z then None
               else Some ({| mantissa := signed; exponent := esign * e - scale |}, r4))
              = Some (d, r) ->
              String.length r <= String.length rest1).
    { intros esign r3 Hr3.
      pose proof (digits_length r3 0%Z 0%Z) as H.
      destruct (digits 0 0 r3) as [[e n] r4].
      destruct (n =? 0)%Z; [discriminate |].
      intros [= _ <-]. simpl in *. lia. }
    destruct (expect "+" r0) as [r' |] eqn:Hplus.
    - apply expect_length in Hplus. apply Hsigned. lia.
    - destruct (expect "-" r0) as [r' |] eqn:Hminus.
      + apply expect_length in Hminus. apply Hsigned. lia.
      + apply Hsigned. lia. }
  destruct (expect "e" rest1) as [r0 |] eqn:He.
  - apply expect_length in He. apply Hmarked. lia.
  - destruct (expect "E" rest1) as [r0 |] eqn:HE.
    + apply expect_length in HE. apply Hmarked. lia.
    + intros [= _ <-]. lia.
Qed.

Lemma unsignedNumber_length (negative : bool) (s0 : string) d r :
  unsignedNumber negative s0 = Some (d, r) ->
  String.length r < String.length s0.
Proof.
  unfold unsignedNumber. destruct s0 as [| c r0]; [discriminate |].
  destruct (isDigit c) eqn:Hdigit; [| discriminate]. simpl.
  pose proof (integerPart_length c r0 Hdigit) as Hint.
  destruct (integerPart c r0) as [int rest].
  destruct (fractionPart int rest) as [[[m scale] rest1] |] eqn:Hfrac; [| discriminate].
  apply fractionPart_length in Hfrac.
  intros Hexp. apply exponentPart_length in Hexp. simpl in *. lia.
Qed.

Lemma parseNumber_length (s : string) (d : Decimal) (r : string) :
  parseNumber s = Some (d, r) -> String.length r < String.length s.
Proof.
  unfold parseNumber.
  destruct (expect "-" s) as [r0 |] eqn:Hminus; intros H;
    apply unsignedNumber_length in H.
  - apply expect_length in Hminus. lia.
  - exact H.
Qed.

Lemma parsers_adequate (fuel : nat) :
  adequate parseValue fuel /\ adequate parseElements fuel
  /\ adequate parseMembers fuel.
Proof.
  induction fuel as [| n (IHv & IHe & IHm)].
  { repeat split; discriminate. }
  split; [| split].
  - (* parseValue *)
    intros s v r. simpl.
    pose proof (skipWhitespace_length s) as Hws.
    destruct (skipWhitespace s) as [| c rest] eqn:Hskip; [discriminate |].
    simpl in Hws.
    destruct (Ascii.eqb c "{") eqn:Hbrace.
    { destruct (expect "}" (skipWhitespace rest)) as [r0 |] eqn:Hclose.
      - intros [= <- <-]. pose proof (skipWhitespace_length rest) as Hws'.
        apply expect_length in Hclose as Hlen.
        split; [lia |]. intros k Hle. destruct k as [| k']; [lia |].
        simpl. rewrite Hskip, Hbrace, Hclose. reflexivity.
      - destruct (parseMembers n rest) as [[ms r0] |] eqn:Hmem; [| discriminate].
        intros [= <- <-]. destruct (IHm _ _ _ Hmem) as [Hlt Hfuel].
        split; [lia |]. intros k Hle. destruct k as [| k']; [lia |].
        simpl. rewrite Hskip, Hbrace, Hclose, (Hfuel k'); [reflexivity | lia]. }
    destruct (Ascii.eqb c "[") eqn:Hbracket.
    { destruct (expect "]" (skipWhitespace rest)) as [r0 |] eqn:Hclose.
      - intros [= <- <-]. pose proof (skipWhitespace_length rest) as Hws'.
        apply expect_length in Hclose as Hlen.
        split; [lia |]. intros k Hle. destruct k as [| k']; [lia |].
        simpl. rewrite Hskip, Hbrace, Hbracket, Hclose. reflexivity.
      - destruct (parseElements n rest) as [[vs r0] |] eqn:Helems; [| discriminate].
        intros [= <- <-]. destruct (IHe _ _ _ Helems) as [Hlt Hfuel].
        split; [lia |]. intros k Hle. destruct k as [| k']; [lia |].
        simpl. rewrite Hskip, Hbrace, Hbracket, Hclose, (Hfuel k'); [reflexivity | lia]. }
    intros H.
    assert (Hlt : String.length r < String.length s).
    { destruct (Ascii.eqb c quote).
      { destruct (parseString rest) as [[str r0] |] eqn:Hstr; [| discriminate].
        injection H as <- <-. apply parseString_length in Hstr. lia. }
      destruct (Ascii.eqb c "t").
      { apply parseLiteral_length in H. simpl in H. lia. }
      destruct (Ascii.eqb c "f").
      { apply parseLiteral_length in H. simpl in H. lia. }
      destruct (Ascii.eqb c "n").
      { apply parseLiteral_length in H. simpl in H. lia. }
      destruct (parseNumber (String c rest)) as [[d r0] |] eqn:Hnum; [| discriminate].
      injection H as <- <-. apply parseNumber_length in Hnum. simpl in Hnum. lia. }
    split; [exact Hlt |]. intros k Hle. destruct k as [| k']; [lia |].
    simpl. rewrite Hskip, Hbrace, Hbracket. exact H.
  - (* parseElements *)
    intros s vs r. simpl.
    destruct (parseValue n s) as [[v r1] |] eqn:Hval; [| discriminate].
    destruct (IHv _ _ _ Hval) as [Hlt1 Hfuel1].
    pose proof (skipWhitespace_length r1) as Hws.
    destruct (expect "," (skipWhitespace r1)) as [r' |] eqn:Hcomma.
    + apply expect_length in Hcomma as Hlen.
      destruct (parseElements n r') as [[vs' r''] |] eqn:Hrest; [| discriminate].
      destruct (IHe _ _ _ Hrest) as [Hlt2 Hfuel2].
      intros [= <- <-]. split; [lia |].
      intros k Hle. destruct k as [| k']; [lia |].
      simpl. rewrite (Hfuel1 k'), Hcomma, (Hfuel2 k'); [reflexivity | lia | lia].
    + destruct (expect "]" (skipWhitespace r1)) as [r' |] eqn:Hclose; [| discriminate].
      apply expect_length in Hclose as Hlen.
      intros [= <- <-]. split; [lia |].
      intros k Hle. destruct k as [| k']; [lia |].
      simpl. rewrite (Hfuel1 k'), Hcomma, Hclose; [reflexivity | lia].
  - (* parseMembers *)
    intros s ms r. simpl.
    pose proof (skipWhitespace_length s) as Hws0.
    destruct (expect quote (skipWhitespace s)) as [r0 |] eqn:Hquote; [| discriminate].
    apply expect_length in Hquote as Hlen0.
    destruct (parseString r0) as [[key r1] |] eqn:Hkey; [| discriminate].
    apply parseString_length in Hkey as Hlen1.
    pose proof (skipWhitespace_length r1) as Hws1.
    destruct (expect ":" (skipWhitespace r1)) as [r2 |] eqn:Hcolon; [| discriminate].
    apply expect_length in Hcolon as Hlen2.
    destruct (parseValue n r2) as [[v r3] |] eqn:Hval; [| discriminate].
    destruct (IHv _ _ _ Hval) as [Hlt3 Hfuel3].
    pose proof (skipWhitespace_length r3) as Hws3.
    destruct (expect "," (skipWhitespace r3)) as [r4 |] eqn:Hcomma.
    + apply expect_length in Hcomma as Hlen4.
      destruct (parseMembers n r4) as [[ms' r5] |] eqn:Hrest; [| discriminate].
      destruct (IHm _ _ _ Hrest) as [Hlt5 Hfuel5].
      intros [= <- <-]. split; [lia |].
      intros k Hle. destruct k as [| k']; [lia |].
      simpl. rewrite Hquote, Hkey, Hcolon, (Hfuel3 k'), Hcomma, (Hfuel5 k');
        [reflexivity | lia | lia].
    + destruct (expect "}" (skipWhitespace r3)) as [r4 |] eqn:Hclose; [| discriminate].
      apply expect_length in Hclose as Hlen4.
      intros [= <- <-]. split; [lia |].
      intros k Hle. destruct k as [| k']; [lia |].
      simpl. rewrite Hquote, Hkey, Hcolon, (Hfuel3 k'), Hcomma, Hclose;
        [reflexivity | lia].
Qed.

(** The fuel [parse] gives is enough: more would read the same. *)
Lemma parseValue_enough_fuel (text : string) (k : nat) :
  2 * String.length text + 2 <= k ->
  parseValue k text = parseValue (2 * String.length text + 2) text.
Proof.
  intros Hk.
  destruct (parseValue k text) as [[v r] |] eqn:Hbig.
  - destruct (parsers_adequate k) as (Hv & _ & _).
    destruct (Hv _ _ _ Hbig) as [Hlt Hfuel]. symmetry. apply Hfuel. lia.
  - destruct (parseValue (2 * String.length text + 2) text) as [[v r] |] eqn:Hsmall;
      [| reflexivity].
    destruct (parsers_adequate (2 * String.length text + 2)) as (Hv & _ & _).
    destruct (Hv _ _ _ Hsmall) as [Hlt Hfuel].
    rewrite Hfuel in Hbig; [discriminate | lia].
Qed.
End Parser.

(* ===================================================================== *)
(** ** The analysis client, proved *)
(* ===================================================================== *)

Section Client.
Import Types GeminiService.

Variable p : Platform.

Lemma analyzeFace_unconfigured (image : option ImageFile) :
  Js.truthy (env p !! "API_KEY") = false ->
  analyzeFace p image
  = {| outcome := Js.Rejected configurationError; requests := [] |}.
Proof. intros H. unfold analyzeFace. rewrite H. reflexivity. Qed.

Lemma analyzeFace_without_image :
  Js.truthy (env p !! "API_KEY") = true ->
  analyzeFace p None
  = {| outcome := Js.Rejected inputRequired; requests := [] |}.
Proof. intros H. unfold analyzeFace. rewrite H. reflexivity. Qed.

Lemma analyzeFace_unreadable (img : ImageFile) (e : Js.Thrown) :
  Js.truthy (env p !! "API_KEY") = true ->
  fileToGenerativePart (readAsDataURL p) img = Js.Rejected e ->
  analyzeFace p (Some img) = {| outcome := Js.Rejected e; requests := [] |}.
Proof. intros H Hread. unfold analyzeFace. rewrite H, Hread. reflexivity. Qed.

Lemma analyzeFace_unanswered (img : ImageFile) (part : Part) (e : Js.Thrown) :
  Js.truthy (env p !! "API_KEY") = true ->
  fileToGenerativePart (readAsDataURL p) img = Js.Fulfilled part ->
  generateContent p (requestFor part) = Js.Rejected e ->
  analyzeFace p (Some img)
  = {| outcome := Js.Rejected e; requests := [requestFor part] |}.
Proof.
  intros H Hread Hcall. unfold analyzeFace. rewrite H, Hread. simpl.
  rewrite Hcall. reflexivity.
Qed.

Lemma analyzeFace_answered (img : ImageFile) (part : Part) (response : Response) :
  Js.truthy (env p !! "API_KEY") = true ->
  fileToGenerativePart (readAsDataURL p) img = Js.Fulfilled part ->
  generateContent p (requestFor part) = Js.Fulfilled response ->
  requests (analyzeFace p (Some img)) = [requestFor part]
  /\ outcome (analyzeFace p (Some img))
     = match text response ≫= (fun t => Json.parse (Js.trim t)) with
       | Some result => Js.Fulfilled result
       | None => Js.Rejected parseError
       end.
Proof.
  intros H Hread Hcall. unfold analyzeFace. rewrite H, Hread. simpl.
  rewrite Hcall. simpl. split; [reflexivity |].
  destruct (text response) as [t|]; simpl; [| reflexivity].
  destruct (Json.parse (Js.trim t)); reflexivity.
Qed.

Lemma analyzeFace_calls_once (image : option ImageFile) :
  (length (requests (analyzeFace p image)) <= 1)%nat.
Proof.
  unfold analyzeFace.
  destruct (Js.truthy (env p !! "API_KEY")); simpl; [| lia].
  destruct image as [img|]; simpl; [| lia].
  destruct (fileToGenerativePart (readAsDataURL p) img) as [part|e]; simpl; [| lia].
  destruct (generateContent p (requestFor part)); simpl; lia.
Qed.

End Client.

(** C2, as the code has it: [analyzeFace] fails with the configuration
    error when no credential is configured and with the input-required
    error when the image is absent; a failure to read the file or to reach
    the service is passed on; once the service has answered, it fails with
    the parse error exactly when the answer has no text or its trimmed
    text is not valid JSON, and otherwise returns the parsed value as it
    is, whatever its shape; the service is called at most once. *)
Theorem analyzeFace_outcomes :
  forall (p : GeminiService.Platform) (image : option Types.ImageFile),
    let run := GeminiService.analyzeFace p image in
    (Js.truthy (GeminiService.env p !! "API_KEY") = false ->
     run = {| GeminiService.outcome := Js.Rejected GeminiService.configurationError;
              GeminiService.requests := [] |})
    /\ (Js.truthy (GeminiService.env p !! "API_KEY") = true ->
        image = None ->
        run = {| GeminiService.outcome := Js.Rejected GeminiService.inputRequired;
                 GeminiService.requests := [] |})
    /\ (forall (img : Types.ImageFile) (e : Js.Thrown),
          Js.truthy (GeminiService.env p !! "API_KEY") = true ->
          image = Some img ->
          GeminiService.fileToGenerativePart (GeminiService.readAsDataURL p) img
            = Js.Rejected e ->
          run = {| GeminiService.outcome := Js.Rejected e;
                   GeminiService.requests := [] |})
    /\ (forall (img : Types.ImageFile) (part : GeminiService.Part) (e : Js.Thrown),
          Js.truthy (GeminiService.env p !! "API_KEY") = true ->
          image = Some img ->
          GeminiService.fileToGenerativePart (GeminiService.readAsDataURL p) img
            = Js.Fulfilled part ->
          GeminiService.generateContent p (GeminiService.requestFor part)
            = Js.Rejected e ->
          run = {| GeminiService.outcome := Js.Rejected e;
                   GeminiService.requests := [GeminiService.requestFor part] |})
    /\ (forall (img : Types.ImageFile) (part : GeminiService.Part)
               (response : GeminiService.Response),
          Js.truthy (GeminiService.env p !! "API_KEY") = true ->
          image = Some img ->
          GeminiService.fileToGenerativePart (GeminiService.readAsDataURL p) img
            = Js.Fulfilled part ->
          GeminiService.generateContent p (GeminiService.requestFor part)
            = Js.Fulfilled response ->
          GeminiService.requests run = [GeminiService.requestFor part]
          /\ (GeminiService.outcome run = Js.Rejected GeminiService.parseError
              <-> GeminiService.text response = None
                  \/ exists t, GeminiService.text response = Some t
                               /\ Json.parse (Js.trim t) = None)
          /\ (forall (t : string) (result : Json.Value),
                GeminiService.text response = Some t ->
                Json.parse (Js.trim t) = Some result ->
                GeminiService.outcome run = Js.Fulfilled result))
    /\ (length (GeminiService.requests run) <= 1)%nat.
Proof.
  intros p image. simpl.
  split; [apply analyzeFace_unconfigured |].
  split; [intros H ->; now apply analyzeFace_without_image |].
  split; [intros img e H ->; now apply analyzeFace_unreadable |].
  split; [intros img part e H ->; now apply analyzeFace_unanswered |].
  split; [| apply analyzeFace_calls_once].
  intros img part response H -> Hread Hcall.
  destruct (analyzeFace_answered p img part response H Hread Hcall) as [Hreq Hout].
  split; [exact Hreq |]. rewrite Hout. split.
  - destruct (GeminiService.text response) as [t|]; simpl.
    + destruct (Json.parse (Js.trim t)) as [v|] eqn:Hparse; split.
      * discriminate.
      * intros [Hnone | (t' & [= <-] & Hnone)]; congruence.
      * intros _. right. exists t. now split.
      * reflexivity.
    + split; [intros _; now left | reflexivity].
  - intros t result -> Hparse. simpl. rewrite Hparse. reflexivity.
Qed.

(** The well-formed response of the specification is returned as parsed,
    after one call; it has the shape of the schema. *)
Lemma analyzeFace_outcomes_balanced :
  let run :=
    GeminiService.analyzeFace (Samples.replying (Some Samples.balancedText))
      (Some {| Types.file := Samples.portrait_jpeg |}) in
  GeminiService.outcome run = Js.Fulfilled Samples.balancedValue
  /\ length (GeminiService.requests run) = 1%nat
  /\ GeminiService.conforms GeminiService.analysisSchema Samples.balancedValue = true.
Proof.
  pose proof (analyzeFace_outcomes (Samples.replying (Some Samples.balancedText))
                (Some {| Types.file := Samples.portrait_jpeg |})) as H.
  cbv zeta in H.
  destruct H as (_ & _ & _ & _ & Hanswered & _).
  destruct (Hanswered {| Types.file := Samples.portrait_jpeg |}
              (GeminiService.InlineDataPart
                 {| GeminiService.data := Some "SkZJRg==";
                    GeminiService.mimeType := "image/jpeg" |})
              {| GeminiService.text := Some Samples.balancedText |}
              eq_refl eq_refl eq_refl eq_refl)
    as (Hreq & _ & Hresult).
  cbv zeta. split; [| split].
  - apply (Hresult Samples.balancedText). reflexivity. vm_compute. reflexivity.
  - rewrite Hreq. reflexivity.
  - vm_compute. reflexivity.
Defined.

(** C2 as stated fails: the text [{}] is valid JSON of the wrong shape, and
    [analyzeFace] returns the empty object instead of failing. *)
Lemma analyzeFace_returns_any_json :
  Json.parse (Js.trim "{}") = Some (Json.Object [])
  /\ GeminiService.conforms GeminiService.analysisSchema (Json.Object []) = false
  /\ GeminiService.outcome
       (GeminiService.analyzeFace (Samples.replying (Some "{}"))
          (Some {| Types.file := Samples.portrait_jpeg |}))
     = Js.Fulfilled (Json.Object [])
  /\ GeminiService.outcome
       (GeminiService.analyzeFace (Samples.replying (Some "{}"))
          (Some {| Types.file := Samples.portrait_jpeg |}))
     <> Js.Rejected GeminiService.parseError.
Proof. repeat split. vm_compute. discriminate. Qed.

(** What [JSON.parse] makes of some texts. *)
Example parse_examples :
  Json.parse "{}" = Some (Json.Object [])
  /\ Json.parse " [1, 2.5e3, -0.1, true, null] "
     = Some (Json.Array
               [ Json.Number {| Json.mantissa := 1; Json.exponent := 0 |};
                 Json.Number {| Json.mantissa := 25; Json.exponent := 2 |};
                 Json.Number {| Json.mantissa := -1; Json.exponent := -1 |};
                 Json.Bool true; Json.Null ])
  /\ Json.parse "" = None
  /\ Json.parse "{} {}" = None
  /\ Json.parse "[1,]" = None
  /\ Json.parse "01" = None
  /\ Json.parse "Sorry, I cannot analyze this image." = None
  /\ Js.trim "
  {}  " = "{}".
Proof. repeat split. Qed.

(* ===================================================================== *)
(** ** The report exporter, proved *)
(* ===================================================================== *)

Section Exporter.
Import PdfGenerator.

Local Abbreviation bg := "backgroundColor" (only parsing).
Local Abbreviation shown target := (setStyle bg "#262626" target) (only parsing).
Local Abbreviation restore target el := (setStyle bg (getStyle bg target) el)
  (only parsing).

(** *** Inline styles *)

Lemma getStyle_setStyle (p v : string) (el : HTMLElement) :
  getStyle p (setStyle p v el) = v.
Proof.
  unfold getStyle, setStyle. simpl.
  destruct (String.eqb_spec v "") as [-> | Hne].
  - now rewrite lookup_delete_eq.
  - now rewrite lookup_insert_eq.
Qed.

Lemma setStyle_other (p q v : string) (el : HTMLElement) :
  p <> q -> style (setStyle p v el) !! q = style el !! q.
Proof.
  intros Hne. unfold setStyle. simpl.
  destruct (String.eqb v "").
  - now apply lookup_delete_ne.
  - now apply lookup_insert_ne.
Qed.

Lemma setStyle_id (p v : string) (el : HTMLElement) :
  id (setStyle p v el) = id el.
Proof. reflexivity. Qed.

Lemma setStyle_setStyle (p u v : string) (el : HTMLElement) :
  setStyle p v (setStyle p u el) = setStyle p v el.
Proof.
  unfold setStyle. simpl. f_equal.
  destruct (String.eqb v ""), (String.eqb u "").
  - apply delete_delete_eq.
  - apply delete_insert_eq.
  - apply insert_delete_eq.
  - apply insert_insert_eq.
Qed.

Lemma setStyle_current (p : string) (el : HTMLElement) :
  style el !! p <> Some "" -> setStyle p (getStyle p el) el = el.
Proof.
  intros Hwf. destruct el as [i st]. unfold setStyle, getStyle in *. simpl in *.
  f_equal. destruct (st !! p) as [v|] eqn:Hp; simpl.
  - destruct (String.eqb_spec v "") as [-> | Hne]; [congruence |].
    now apply insert_id.
  - now apply delete_id.
Qed.

(** *** The capture *)

Lemma capture_settles rasterize construct (target : HTMLElement) :
  exists d : Dom,
    capture rasterize construct {| element := target; events := [] |}
    = (Js.Fulfilled tt, d)
    /\ (element d = restore target (shown target)
        \/ element d = restore target (restore target (shown target))).
Proof.
  unfold capture, bind, tryCatch, readElement, assignStyle, emit, await, throwing.
  simpl.
  destruct (rasterize _ _) as [canvas | e]; simpl; [| eauto].
  destruct (toDataURL canvas _) as [imgData | e]; simpl; [| eauto].
  destruct (construct _) as [pdf | e]; simpl; [| eauto].
  destruct (addImage pdf _ _ _ _ _ _) as [e |]; simpl; [eauto |].
  destruct (save pdf _) as [e |]; simpl; eauto.
Qed.

Lemma capture_restores rasterize construct (target : HTMLElement) :
  exists d : Dom,
    capture rasterize construct {| element := target; events := [] |}
    = (Js.Fulfilled tt, d)
    /\ element d = restore target target.
Proof.
  destruct (capture_settles rasterize construct target) as (d & Hrun & Hel).
  exists d. split; [exact Hrun |].
  destruct Hel as [-> | ->]; now rewrite !setStyle_setStyle.
Qed.

Lemma capture_rasterizer_fails rasterize construct (target : HTMLElement) e :
  rasterize (shown target) captureOptions = Js.Rejected e ->
  snd (capture rasterize construct {| element := target; events := [] |})
  = {| element := restore target (shown target);
       events :=
         [ Timeout 200;
           Rasterize (shown target) captureOptions;
           ConsoleError "Error generating PDF:" (Some e);
           Alert "An error occurred while generating the PDF report. Please try again." ] |}.
Proof.
  intros Hfail.
  unfold capture, bind, tryCatch, readElement, assignStyle, emit, await, throwing.
  simpl. rewrite Hfail. reflexivity.
Qed.


Lemma libraries_None (w : Window) :
  libraries w = None
  <-> html2canvas w = None \/ jspdf w = None
      \/ exists namespace, jspdf w = Some namespace /\ jsPDF namespace = None.
Proof.
  unfold libraries.
  destruct (html2canvas w) as [rasterize|]; [| intuition].
  destruct (jspdf w) as [namespace|]; [| intuition].
  destruct (jsPDF namespace) as [construct|] eqn:Hctor; split.
  - discriminate.
  - intros [H | [H | (ns & [= <-] & H)]]; congruence.
  - intros _. right. right. eauto.
  - reflexivity.
Qed.

(** *** The page *)



End Exporter.

(** C7, as the code has it: [generatePdf] reports a failure to the user
    and not to its caller. With a library missing it logs, alerts that the
    library could not be loaded and leaves the element alone; when the
    rasterizer raises it logs the error and alerts that the report could
    not be generated, and no document is made or saved; in both cases, as
    in every other, the promise it returns is fulfilled. *)
Theorem generatePdf_reports_failures :
  forall (w : PdfGenerator.Window) (target : PdfGenerator.HTMLElement),
    let run := PdfGenerator.generatePdf w (Some target) in
    PdfGenerator.completion run = Js.Fulfilled tt
    /\ ((PdfGenerator.html2canvas w = None \/ PdfGenerator.jspdf w = None
         \/ exists namespace, PdfGenerator.jspdf w = Some namespace
                              /\ PdfGenerator.jsPDF namespace = None) ->
        PdfGenerator.after run = Some target
        /\ PdfGenerator.trace run
           = [ PdfGenerator.ConsoleError
                 "PDF generation failed: html2canvas or jspdf library not found or not correctly loaded."
                 None;
               PdfGenerator.Alert
                 "Sorry, there was a problem loading the PDF generation library. Please try refreshing the page." ])
    /\ (forall rasterize construct (e : Js.Thrown),
          PdfGenerator.libraries w = Some (rasterize, construct) ->
          rasterize (PdfGenerator.setStyle "backgroundColor" "#262626" target)
            PdfGenerator.captureOptions = Js.Rejected e ->
          PdfGenerator.trace run
          = [ PdfGenerator.Timeout 200;
              PdfGenerator.Rasterize
                (PdfGenerator.setStyle "backgroundColor" "#262626" target)
                PdfGenerator.captureOptions;
              PdfGenerator.ConsoleError "Error generating PDF:" (Some e);
              PdfGenerator.Alert
                "An error occurred while generating the PDF report. Please try again." ]).
Proof.
  intros w target. cbv zeta. unfold PdfGenerator.generatePdf. split; [| split].
  - destruct (PdfGenerator.libraries w) as [[rasterize construct] |]; [| reflexivity].
    destruct (capture_settles rasterize construct target) as (d & -> & _).
    reflexivity.
  - intros Hmissing. apply libraries_None in Hmissing. rewrite Hmissing. now split.
  - intros rasterize construct e -> Hfail.
    pose proof (capture_rasterizer_fails rasterize construct target e Hfail) as Hsnd.
    destruct (PdfGenerator.capture rasterize construct _) as [result d].
    simpl in *. now rewrite Hsnd.
Qed.

Lemma generatePdf_reports_failures_on_samples :
  PdfGenerator.trace (PdfGenerator.generatePdf Samples.noLibraries (Some Samples.report))
  = [ PdfGenerator.ConsoleError
        "PDF generation failed: html2canvas or jspdf library not found or not correctly loaded."
        None;
      PdfGenerator.Alert
        "Sorry, there was a problem loading the PDF generation library. Please try refreshing the page." ]
  /\ PdfGenerator.completion
       (PdfGenerator.generatePdf Samples.noLibraries (Some Samples.report))
     = Js.Fulfilled tt.
Proof.
  destruct (generatePdf_reports_failures Samples.noLibraries Samples.report)
    as (Hdone & Hmissing & _).
  split; [| exact Hdone].
  apply Hmissing. left. reflexivity.
Defined.

(** C7 as stated fails: without the libraries, and with a rasterizer that
    raises, the promise of [generatePdf] is fulfilled, not rejected, and
    [handleDownload] ends as it does after a successful export. *)
Lemma generatePdf_never_rejects_on_samples :
  PdfGenerator.libraries Samples.noLibraries = None
  /\ PdfGenerator.completion
       (PdfGenerator.generatePdf Samples.noLibraries (Some Samples.report))
     = Js.Fulfilled tt
  /\ PdfGenerator.html2canvas Samples.failingRasterizer
     = Some (fun _ _ => Js.Rejected (Js.ErrorObject "Unable to find element in cloned iframe"))
  /\ PdfGenerator.completion
       (PdfGenerator.generatePdf Samples.failingRasterizer (Some Samples.report))
     = Js.Fulfilled tt
  /\ fst (AnalysisReport.handleDownload Samples.noLibraries (Some Samples.report)
            {| AnalysisReport.isDownloading := false; AnalysisReport.showDetails := false |})
     = fst (AnalysisReport.handleDownload Samples.working (Some Samples.report)
              {| AnalysisReport.isDownloading := false; AnalysisReport.showDetails := false |}).
Proof. repeat split. Qed.

(** C8: after [generatePdf], on every path, the element's background
    color reads as it did before and every other style property, and the
    rest of the element, is as it was; the inline style as a whole is the
    original one. *)
Theorem generatePdf_restores_background :
  forall (w : PdfGenerator.Window) (target : PdfGenerator.HTMLElement),
  exists el' : PdfGenerator.HTMLElement,
    PdfGenerator.after (PdfGenerator.generatePdf w (Some target)) = Some el'
    /\ PdfGenerator.getStyle "backgroundColor" el'
       = PdfGenerator.getStyle "backgroundColor" target
    /\ (forall property : string,
          property <> "backgroundColor" ->
          PdfGenerator.style el' !! property = PdfGenerator.style target !! property)
    /\ PdfGenerator.id el' = PdfGenerator.id target
    /\ (PdfGenerator.style target !! "backgroundColor" <> Some "" -> el' = target).
Proof.
  intros w target. unfold PdfGenerator.generatePdf.
  destruct (PdfGenerator.libraries w) as [[rasterize construct] |].
  - destruct (capture_restores rasterize construct target) as (d & -> & Hel).
    exists (PdfGenerator.element d). rewrite Hel.
    split; [reflexivity |].
    split; [apply getStyle_setStyle |].
    split; [intros property Hne; apply setStyle_other; congruence |].
    split; [reflexivity | apply setStyle_current].
  - exists target. repeat split.
Qed.

(** The report element after a successful and after a failed export. *)
Example generatePdf_restores_report :
  PdfGenerator.after (PdfGenerator.generatePdf Samples.working (Some Samples.report))
  = Some Samples.report
  /\ PdfGenerator.after
       (PdfGenerator.generatePdf Samples.failingRasterizer (Some Samples.report))
     = Some Samples.report
  /\ In (PdfGenerator.Save "Fibonacci-Face-Analysis.pdf")
        (PdfGenerator.trace
           (PdfGenerator.generatePdf Samples.working (Some Samples.report))).
Proof.
  split; [| split].
  - destruct (generatePdf_restores_background Samples.working Samples.report)
      as (el' & -> & _ & _ & _ & Hsame).
    f_equal. apply Hsame. vm_compute. discriminate.
  - destruct (generatePdf_restores_background Samples.failingRasterizer Samples.report)
      as (el' & -> & _ & _ & _ & Hsame).
    f_equal. apply Hsame. vm_compute. discriminate.
  - vm_compute. tauto.
Qed.



(** The pages of a portrait, a square and a landscape capture. *)
Example pdfOptions_examples :
  PdfGenerator.pdfOptions (Samples.bitmap 1600 2000)
  = {| PdfGenerator.orientation := "portrait"; PdfGenerator.unit := "mm";
       PdfGenerator.format := (210%Q, PdfGenerator.Finite (2000 * 210 / 1600)%Q) |}
  /\ (2000 * 210 / 1600 == 262.5)%Q
  /\ PdfGenerator.orientation (PdfGenerator.pdfOptions (Samples.bitmap 1000 1000))
     = "portrait"
  /\ PdfGenerator.orientation (PdfGenerator.pdfOptions (Samples.bitmap 2000 1600))
     = "landscape"
  /\ PdfGenerator.orientation (PdfGenerator.pdfOptions (Samples.bitmap 1001 1000))
     = "landscape".
Proof. repeat split. Qed.

(* ===================================================================== *)
(** ** The controller over any sequence of actions *)
(* ===================================================================== *)

Section Reachable.
Import Types.

(** What every action keeps: a result is retained in Result, a non-empty
    message is set in Error, and the attached image is of an accepted
    type. *)
Lemma step_keeps (a : App.Action) (s : App.State) :
  (App.appState s = Result -> exists r, App.analysisResult s = Some r) ->
  (App.appState s = Error -> exists m, App.error s = Some m /\ m <> "") ->
  (forall img, App.image s = Some img -> In (type (file img)) App.acceptedTypes) ->
  (App.appState (App.step a s) = Result ->
   exists r, App.analysisResult (App.step a s) = Some r)
  /\ (App.appState (App.step a s) = Error ->
      exists m, App.error (App.step a s) = Some m /\ m <> "")
  /\ (forall img, App.image (App.step a s) = Some img ->
                  In (type (file img)) App.acceptedTypes).
Proof.
  intros Hresult Herror Himage.
  destruct a as [f | | | o |]; simpl.
  - unfold App.handleImageUpload.
    destruct (Js.includes App.acceptedTypes (type f)) eqn:Hacc; simpl.
    + split; [discriminate |]. split; [discriminate |].
      intros img [= <-]. apply includes_spec in Hacc. exact Hacc.
    + split; [discriminate |].
      split; [intros _; eexists; split; [reflexivity | discriminate] | exact Himage].
  - split; [exact Hresult |]. split; [exact Herror | discriminate].
  - unfold App.handleAnalyze_begin.
    destruct (App.image s) as [img |] eqn:Himg; simpl.
    + split; [discriminate |]. split; [discriminate |].
      rewrite Himg. exact Himage.
    + split; [exact Hresult |].
      split; [intros _; eexists; split; [reflexivity | discriminate] |].
      rewrite Himg. discriminate.
  - destruct o as [r | e]; simpl.
    + destruct (Js.present (error r) && Js.truthy (errorMessage r)) eqn:Hguard; simpl.
      * apply andb_true_iff in Hguard as [_ Htruthy].
        apply truthy_spec in Htruthy as (m & Hm & Hne).
        split; [discriminate |].
        split; [intros _; exists m; now split | exact Himage].
      * split; [intros _; now eexists |]. split; [discriminate | exact Himage].
    + split; [discriminate |].
      split; [intros _; eexists; split; [reflexivity | discriminate] | exact Himage].
  - split; [discriminate |]. split; discriminate.
Qed.

Lemma run_keeps (l : list App.Action) :
  forall s : App.State,
    (App.appState s = Result -> exists r, App.analysisResult s = Some r) ->
    (App.appState s = Error -> exists m, App.error s = Some m /\ m <> "") ->
    (forall img, App.image s = Some img -> In (type (file img)) App.acceptedTypes) ->
    (App.appState (App.run l s) = Result ->
     exists r, App.analysisResult (App.run l s) = Some r)
    /\ (App.appState (App.run l s) = Error ->
        exists m, App.error (App.run l s) = Some m /\ m <> "")
    /\ (forall img, App.image (App.run l s) = Some img ->
                    In (type (file img)) App.acceptedTypes).
Proof.
  induction l as [| a l IH]; intros s Hresult Herror Himage; simpl.
  - auto.
  - destruct (step_keeps a s Hresult Herror Himage) as (H1 & H2 & H3).
    now apply IH.
Qed.

Lemma initial_keeps :
  (App.appState App.initial = Result -> exists r, App.analysisResult App.initial = Some r)
  /\ (App.appState App.initial = Error ->
      exists m, App.error App.initial = Some m /\ m <> "")
  /\ (forall img, App.image App.initial = Some img ->
                  In (type (file img)) App.acceptedTypes).
Proof. repeat split; discriminate. Qed.

End Reachable.


(** X2: whatever the handlers called and the analyses settled, the image
    that [handleAnalyze] hands to the analysis client is of type
    image/jpeg, image/png or image/jpg. *)
Theorem analyzed_image_is_accepted :
  forall (l : list App.Action) (img : Types.ImageFile),
    snd (App.handleAnalyze_begin (App.run l App.initial)) = Some img ->
    Types.type (Types.file img) = "image/jpeg"
    \/ Types.type (Types.file img) = "image/png"
    \/ Types.type (Types.file img) = "image/jpg".
Proof.
  intros l img Hcall.
  destruct initial_keeps as (I1 & I2 & I3).
  destruct (run_keeps l App.initial I1 I2 I3) as (_ & _ & Himage).
  unfold App.handleAnalyze_begin in Hcall.
  destruct (App.image (App.run l App.initial)) as [attached |] eqn:Himg;
    simpl in Hcall; [| discriminate].
  injection Hcall as <-.
  apply accepted_iff, includes_spec, Himage. reflexivity.
Qed.

Lemma analyzed_image_is_accepted_after_retry :
  Types.type Samples.portrait_jpeg = "image/jpeg"
  \/ Types.type Samples.portrait_jpeg = "image/png"
  \/ Types.type Samples.portrait_jpeg = "image/jpg".
Proof.
  apply (analyzed_image_is_accepted
           [App.Upload Samples.animation_gif; App.Reset;
            App.Upload Samples.portrait_jpeg]
           {| Types.file := Samples.portrait_jpeg |}).
  reflexivity.
Defined.



(** X4: with an image attached, when the client's call fails,
    [handleAnalyze] ends in Error with the fixed prefix followed by the
    message of the thrown error, or by the unknown-error text for a thrown
    value that is no error object; the image and the result retained
    before are left as they were. *)
Theorem handleAnalyze_failure :
  forall (analyzeFace : Types.ImageFile -> Js.Settled Types.AnalysisResult)
         (s : App.State) (img : Types.ImageFile) (e : Js.Thrown),
    App.image s = Some img ->
    analyzeFace img = Js.Rejected e ->
    App.handleAnalyze analyzeFace s
    = {| App.image := Some img;
         App.analysisResult := App.analysisResult s;
         App.appState := Types.Error;
         App.error :=
           Some ("Unable to analyze. Please re-upload a clear image. Details: "
                 ++ match e with
                    | Js.ErrorObject message => message
                    | Js.OtherValue _ => "An unknown error occurred during analysis."
                    end) |}.
Proof.
  intros analyzeFace s img e Himg Hcall.
  unfold App.handleAnalyze, App.handleAnalyze_begin. rewrite Himg, Hcall.
  unfold App.handleAnalyze_settle, App.setAppState, App.setError. simpl.
  now rewrite Himg.
Qed.

Lemma handleAnalyze_failure_of_reader :
  App.handleAnalyze (fun _ => Js.Rejected (Js.OtherValue "ProgressEvent"))
    Samples.showingResult
  = {| App.image := Some {| Types.file := Samples.portrait_jpeg |};
       App.analysisResult := Some Samples.balanced;
       App.appState := Types.Error;
       App.error :=
         Some "Unable to analyze. Please re-upload a clear image. Details: An unknown error occurred during analysis." |}.
Proof.
  apply (handleAnalyze_failure (fun _ => Js.Rejected (Js.OtherValue "ProgressEvent"))
           Samples.showingResult {| Types.file := Samples.portrait_jpeg |}
           (Js.OtherValue "ProgressEvent")).
  - reflexivity.
  - reflexivity.
Defined.

(** X5: without an image, [handleAnalyze] only sets the inline error: the
    application state, the image and the retained result stay as they
    were, and the client plays no part in the outcome. *)
Theorem handleAnalyze_no_image :
  forall (analyzeFace other : Types.ImageFile -> Js.Settled Types.AnalysisResult)
         (s : App.State),
    App.image s = None ->
    App.handleAnalyze analyzeFace s
    = {| App.image := None;
         App.analysisResult := App.analysisResult s;
         App.appState := App.appState s;
         App.error := Some "Please upload an image to analyze." |}
    /\ App.handleAnalyze analyzeFace s = App.handleAnalyze other s.
Proof.
  intros analyzeFace other s Himg.
  rewrite !handleAnalyze_without_image by exact Himg.
  split; [| reflexivity]. unfold App.setError. now rewrite Himg.
Qed.

Lemma handleAnalyze_no_image_initially :
  App.handleAnalyze (fun _ => Js.Fulfilled Samples.balanced) App.initial
  = {| App.image := None;
       App.analysisResult := None;
       App.appState := Types.Idle;
       App.error := Some "Please upload an image to analyze." |}
  /\ App.handleAnalyze (fun _ => Js.Fulfilled Samples.balanced) App.initial
     = App.handleAnalyze (fun _ => Js.Rejected (Js.OtherValue "ProgressEvent")) App.initial.
Proof.
  apply (handleAnalyze_no_image (fun _ => Js.Fulfilled Samples.balanced)
           (fun _ => Js.Rejected (Js.OtherValue "ProgressEvent")) App.initial).
  reflexivity.
Defined.

(** X6: when the uploader is shown with its Analyze button enabled, an
    image is attached and pressing the button starts an analysis: the
    controller goes to Loading with the error cleared and that image is
    handed to the client. *)
Theorem enabled_analyze_starts_loading :
  forall (s : App.State) (shown : option Types.ImageFile),
    App.renderContent s = App.UploaderView shown false ->
    exists img : Types.ImageFile,
      shown = Some img
      /\ App.handleAnalyze_begin s
         = ({| App.image := Some img;
               App.analysisResult := App.analysisResult s;
               App.appState := Types.Loading;
               App.error := None |}, Some img).
Proof.
  intros s shown. unfold App.renderContent, App.handleAnalyze_begin.
  destruct (App.appState s); try discriminate.
  - destruct (App.image s) as [img |] eqn:Himg; simpl; [| discriminate].
    intros [= <-]. exists img. split; [reflexivity |].
    unfold App.setError, App.setAppState. simpl. now rewrite Himg.
  - destruct (App.analysisResult s); discriminate.
Qed.

Lemma enabled_analyze_starts_loading_after_upload :
  exists img : Types.ImageFile,
    Some {| Types.file := Samples.portrait_jpeg |} = Some img
    /\ App.handleAnalyze_begin (App.handleImageUpload Samples.portrait_jpeg App.initial)
       = ({| App.image := Some img;
             App.analysisResult := None;
             App.appState := Types.Loading;
             App.error := None |}, Some img).
Proof.
  apply (enabled_analyze_starts_loading
           (App.handleImageUpload Samples.portrait_jpeg App.initial)
           (Some {| Types.file := Samples.portrait_jpeg |})).
  reflexivity.
Defined.

(* ===================================================================== *)
(** ** The camera, the uploader and the loader *)
(* ===================================================================== *)

Section Camera.
Import CameraView.

Lemma failureMessage_nonempty (err : Failure) : failureMessage err <> "".
Proof.
  destruct err as [name |]; simpl; [| discriminate].
  repeat match goal with
         | |- context [if ?b then _ else _] => destruct b
         end; discriminate.
Qed.

Lemma handleCapture_type (now : Z) (blob : option string) (s : State) (f : Types.File) :
  handleCapture now blob s = Some f -> Types.type f = "image/jpeg".
Proof.
  unfold handleCapture.
  destruct (Js.truthy (error s) || negb (Js.present (stream s))); [discriminate |].
  destruct blob; [| discriminate]. now intros [= <-].
Qed.

End Camera.

(** X7: whatever the camera view hands over as a capture is a JPEG file,
    and the uploader passes it to the controller, which always accepts
    it: the capture becomes the attached image, the controller is in Idle
    with no error, and the camera view is closed. *)
Theorem captured_photo_is_attached :
  forall (now : Z) (blob : option string) (camera : CameraView.State)
         (f : Types.File) (parent : App.State) (ui : ImageUploader.State),
    CameraView.handleCapture now blob camera = Some f ->
    Types.type f = "image/jpeg"
    /\ ImageUploader.handleCapture f parent ui
       = ({| App.image := Some {| Types.file := f |};
             App.analysisResult := App.analysisResult parent;
             App.appState := Types.Idle;
             App.error := None |},
          {| ImageUploader.isCameraOpen := false |}).
Proof.
  intros now blob camera f parent ui Hcapture.
  apply handleCapture_type in Hcapture as Htype. split; [exact Htype |].
  unfold ImageUploader.handleCapture, App.handleImageUpload.
  rewrite Htype. reflexivity.
Qed.

Lemma captured_photo_is_attached_after_error :
  Types.type {| Types.name := "capture-1700000000000.jpg";
                Types.type := "image/jpeg"; Types.payload := "JFIF" |}
  = "image/jpeg"
  /\ ImageUploader.handleCapture
       {| Types.name := "capture-1700000000000.jpg";
          Types.type := "image/jpeg"; Types.payload := "JFIF" |}
       (App.handleImageUpload Samples.animation_gif App.initial)
       {| ImageUploader.isCameraOpen := true |}
     = ({| App.image :=
             Some {| Types.file :=
                       {| Types.name := "capture-1700000000000.jpg";
                          Types.type := "image/jpeg"; Types.payload := "JFIF" |} |};
           App.analysisResult := None;
           App.appState := Types.Idle;
           App.error := None |},
        {| ImageUploader.isCameraOpen := false |}).
Proof.
  apply (captured_photo_is_attached 1700000000000 (Some "JFIF")
           (CameraView.started (inr {| CameraView.getTracks := [0%nat] |})
              CameraView.initial)).
  reflexivity.
Defined.

(** X8: when the camera cannot be started, whatever the reason, a
    non-empty message is set, the capture button is disabled and
    [handleCapture] hands over no file. *)
Theorem camera_failure_blocks_capture :
  forall (err : CameraView.Failure) (s : CameraView.State)
         (now : Z) (blob : option string),
    CameraView.isMounted s = true ->
    let s' := CameraView.started (inl err) s in
    CameraView.error s' = Some (CameraView.failureMessage err)
    /\ CameraView.failureMessage err <> ""
    /\ CameraView.captureDisabled s' = true
    /\ CameraView.handleCapture now blob s' = None.
Proof.
  intros err s now blob Hmounted. cbv zeta.
  pose proof (failureMessage_nonempty err) as Hne.
  assert (Htruthy : Js.truthy (Some (CameraView.failureMessage err)) = true).
  { apply truthy_spec. eexists. now split. }
  unfold CameraView.captureDisabled, CameraView.handleCapture, CameraView.started.
  simpl. rewrite Hmounted, Htruthy. simpl.
  repeat split; [exact Hne | apply orb_true_r].
Qed.

Lemma camera_failure_blocks_capture_when_denied :
  CameraView.error
    (CameraView.started (inl (CameraView.DOMException "NotAllowedError"))
       CameraView.initial)
  = Some "Camera access was denied. Please allow camera permission in your browser's site settings and try again."
  /\ CameraView.captureDisabled
       (CameraView.started (inl (CameraView.DOMException "NotAllowedError"))
          CameraView.initial) = true
  /\ CameraView.handleCapture 0 (Some "JFIF")
       (CameraView.started (inl (CameraView.DOMException "NotAllowedError"))
          CameraView.initial) = None.
Proof.
  destruct (camera_failure_blocks_capture (CameraView.DOMException "NotAllowedError")
              CameraView.initial 0 (Some "JFIF") eq_refl)
    as (Herr & _ & Hdisabled & Hnone).
  exact (conj Herr (conj Hdisabled Hnone)).
Defined.

(** X9: when [getUserMedia] has settled before the camera view unmounts,
    the cleanup stops every track of the stream it gave, and nothing when
    it gave none. *)
Theorem unmount_stops_the_stream :
  forall outcome : CameraView.Failure + CameraView.MediaStream,
    CameraView.stopped
      (CameraView.unmount (CameraView.started outcome CameraView.initial))
    = match outcome with
      | inr mediaStream => CameraView.getTracks mediaStream
      | inl _ => []
      end.
Proof. intros [err | mediaStream]; reflexivity. Qed.

(** X10: when the camera view unmounts before the stream arrives, the
    cleanup has nothing to stop, and the stream that arrives afterwards
    is held by the effect with none of its tracks stopped and without
    reaching the component's state. *)
Theorem late_stream_is_not_stopped :
  forall mediaStream : CameraView.MediaStream,
    let s := CameraView.started (inr mediaStream)
               (CameraView.unmount CameraView.initial) in
    CameraView.stopped s = []
    /\ CameraView.activeStream s = Some mediaStream
    /\ CameraView.stream s = None.
Proof. intros mediaStream. repeat split. Qed.

(** X11: the loader's message index after n ticks is n modulo 5, so it
    always names one of the five messages and comes back to the first
    every five ticks. *)
Theorem loader_message_cycles :
  forall ticks : nat,
    Loader.messageIndex ticks = (ticks mod 5)%nat
    /\ (exists shown : string, Loader.message ticks = Some shown)
    /\ Loader.messageIndex (ticks + 5) = Loader.messageIndex ticks.
Proof.
  assert (Hindex : forall n, Loader.messageIndex n = (n mod 5)%nat).
  { induction n as [| n IH].
    - reflexivity.
    - unfold Loader.messageIndex in *. simpl Nat.iter. rewrite IH.
      unfold Loader.next. simpl length.
      rewrite Nat.Div0.add_mod_idemp_l. f_equal. lia. }
  intros ticks. split; [apply Hindex |]. split.
  - unfold Loader.message. rewrite Hindex.
    apply lookup_lt_is_Some. change (length Loader.messages) with 5%nat.
    apply Nat.mod_upper_bound. lia.
  - rewrite !Hindex.
    replace (ticks + 5)%nat with (ticks + 1 * 5)%nat by lia.
    apply Nat.Div0.mod_add.
Qed.

Section ProgressBar.
Import AnalysisReport.

(** A pending timer is the one of the score the effect last ran for; with
    no timer pending the bar is either untouched or at that score. *)
Lemma barStep_keeps (e : BarEvent) (b : Bar) :
  (forall v, timer b = Some v -> effectScore b = Some v) ->
  (timer b = None ->
   (effectScore b = None /\ barWidth b = 0%Z) \/ effectScore b = Some (barWidth b)) ->
  (forall v, timer (barStep e b) = Some v -> effectScore (barStep e b) = Some v)
  /\ (timer (barStep e b) = None ->
      (effectScore (barStep e b) = None /\ barWidth (barStep e b) = 0%Z)
      \/ effectScore (barStep e b) = Some (barWidth (barStep e b))).
Proof.
  intros Hpending Hidle. destruct e as [score |]; simpl.
  - unfold render. destruct (effectScore b) as [previous |] eqn:Hscore.
    + destruct (previous =? score)%Z eqn:Hsame; simpl.
      * rewrite Hscore. split; [exact Hpending | exact Hidle].
      * split; [intros v [= <-]; reflexivity | discriminate].
    + simpl. split; [intros v [= <-]; reflexivity | discriminate].
  - unfold fire. destruct (timer b) as [v |] eqn:Htimer; simpl.
    + split; [discriminate |]. intros _. right. now apply Hpending.
    + rewrite Htimer. split; [discriminate | exact Hidle].
Qed.

Lemma barRun_keeps (l : list BarEvent) :
  forall b : Bar,
    (forall v, timer b = Some v -> effectScore b = Some v) ->
    (timer b = None ->
     (effectScore b = None /\ barWidth b = 0%Z) \/ effectScore b = Some (barWidth b)) ->
    (forall v, timer (barRun l b) = Some v -> effectScore (barRun l b) = Some v)
    /\ (timer (barRun l b) = None ->
        (effectScore (barRun l b) = None /\ barWidth (barRun l b) = 0%Z)
        \/ effectScore (barRun l b) = Some (barWidth (barRun l b))).
Proof.
  induction l as [| e l IH]; intros b Hpending Hidle; simpl.
  - now split.
  - destruct (barStep_keeps e b Hpending Hidle) as [H1 H2]. now apply IH.
Qed.

End ProgressBar.

(** X12: whatever was rendered and whichever timers fired before, once
    the bar is rendered with a score and its timer has fired, the bar's
    width is that score. *)
Theorem progress_bar_reaches_score :
  forall (l : list AnalysisReport.BarEvent) (score : Z),
    AnalysisReport.barWidth
      (AnalysisReport.barRun
         (l ++ [AnalysisReport.Render score; AnalysisReport.Fire])
         AnalysisReport.mounted)
    = score.
Proof.
  intros l score. unfold AnalysisReport.barRun.
  rewrite fold_left_app. fold (AnalysisReport.barRun l AnalysisReport.mounted).
  destruct (barRun_keeps l AnalysisReport.mounted) as [Hpending Hidle].
  { discriminate. }
  { intros _. left. now split. }
  set (b := AnalysisReport.barRun l AnalysisReport.mounted) in *.
  simpl. unfold AnalysisReport.render.
  destruct (AnalysisReport.effectScore b) as [previous |] eqn:Hscore.
  - destruct (previous =? score)%Z eqn:Hsame; [| reflexivity].
    apply Z.eqb_eq in Hsame. subst previous.
    unfold AnalysisReport.fire.
    destruct (AnalysisReport.timer b) as [v |] eqn:Htimer; simpl.
    + specialize (Hpending v eq_refl). congruence.
    + destruct (Hidle eq_refl) as [[Hnone _] | Hsome]; congruence.
  - reflexivity.
Qed.

(** X13: the share button reads Share again once [handleShare] is over;
    with the Web Share API the clipboard is not written and the label is
    not changed, even when sharing fails; without it the clipboard is
    given the share text, a line break and the page's origin, and the
    label shows the outcome before it reverts. *)
Theorem handleShare_outcomes :
  forall (origin : string) (overallScore : Z) (navigator : AnalysisReport.Navigator),
    let events := AnalysisReport.handleShare origin overallScore navigator in
    AnalysisReport.labelAfter events "Share" = "Share"
    /\ (forall native, AnalysisReport.share navigator = Some native ->
        forall e, In e events ->
                  e = AnalysisReport.NativeShare
                        (AnalysisReport.shareData origin overallScore)
                  \/ exists error, e = AnalysisReport.LogError "Error sharing:" error)
    /\ (AnalysisReport.share navigator = None ->
        exists rest,
          events
          = AnalysisReport.ClipboardWrite
              (AnalysisReport.text (AnalysisReport.shareData origin overallScore)
               ++ AnalysisReport.newline ++ origin)
            :: rest
          /\ (In (AnalysisReport.SetShareText "Copied!") rest
              \/ In (AnalysisReport.SetShareText "Failed!") rest)
          /\ In (AnalysisReport.SetShareTextAfter 2000 "Share") rest).
Proof.
  intros origin overallScore navigator. cbv zeta.
  unfold AnalysisReport.handleShare.
  destruct (AnalysisReport.share navigator) as [native |].
  - destruct (native _) as [done | error]; simpl.
    + split; [reflexivity |]. split; [| discriminate].
      intros _ _ e [<- | []]. now left.
    + split; [reflexivity |]. split; [| discriminate].
      intros _ _ e [<- | [<- | []]]; [now left | right; now eexists].
  - destruct (AnalysisReport.writeText navigator _) as [done | error]; simpl.
    + split; [reflexivity |]. split; [discriminate |].
      intros _. eexists. split; [reflexivity |]. simpl. tauto.
    + split; [reflexivity |]. split; [discriminate |].
      intros _. eexists. split; [reflexivity |]. simpl. tauto.
Qed.

(* ===================================================================== *)
(** ** The analysis client and the controller together *)
(* ===================================================================== *)

Section DataUrl.
Import GeminiService.

Lemma split_comma_plain (s : string) :
  ~ In ","%char (list_ascii_of_string s) -> split_comma s = [s].
Proof.
  induction s as [| c s IH]; simpl; [reflexivity |].
  intros Hfree. destruct (Ascii.eqb_spec c ",") as [-> | Hne].
  - exfalso. apply Hfree. now left.
  - rewrite IH; [reflexivity |]. intros Hin. apply Hfree. now right.
Qed.

Lemma split_comma_header (header rest : string) :
  ~ In ","%char (list_ascii_of_string header) ->
  split_comma (header ++ String "," rest) = header :: split_comma rest.
Proof.
  induction header as [| c header IH]; simpl; [reflexivity |].
  intros Hfree. destruct (Ascii.eqb_spec c ",") as [-> | Hne].
  - exfalso. apply Hfree. now left.
  - rewrite IH; [reflexivity |]. intros Hin. apply Hfree. now right.
Qed.

End DataUrl.

(** X14: when the file reader yields a data URL made of a header without
    comma, a comma and a payload without comma (as base64 is), the image
    part sent to the service carries exactly that payload, with the
    file's own MIME type. *)
Theorem fileToGenerativePart_payload :
  forall (readAsDataURL : Types.File -> Js.Settled string)
         (imageFile : Types.ImageFile) (header payload : string),
    ~ In ","%char (list_ascii_of_string header) ->
    ~ In ","%char (list_ascii_of_string payload) ->
    readAsDataURL (Types.file imageFile) = Js.Fulfilled (header ++ "," ++ payload) ->
    GeminiService.fileToGenerativePart readAsDataURL imageFile
    = Js.Fulfilled
        (GeminiService.InlineDataPart
           {| GeminiService.data := Some payload;
              GeminiService.mimeType := Types.type (Types.file imageFile) |}).
Proof.
  intros readAsDataURL imageFile header payload Hheader Hpayload Hread.
  unfold GeminiService.fileToGenerativePart. rewrite Hread.
  change (header ++ "," ++ payload) with (header ++ String "," payload).
  rewrite split_comma_header by exact Hheader.
  rewrite split_comma_plain by exact Hpayload. reflexivity.
Qed.

Lemma fileToGenerativePart_payload_jpeg :
  GeminiService.fileToGenerativePart
    (fun _ => Js.Fulfilled ("data:image/jpeg;base64" ++ "," ++ "SkZJRg=="))
    {| Types.file := Samples.portrait_jpeg |}
  = Js.Fulfilled
      (GeminiService.InlineDataPart
         {| GeminiService.data := Some "SkZJRg==";
            GeminiService.mimeType := "image/jpeg" |}).
Proof.
  apply (fileToGenerativePart_payload
           (fun _ => Js.Fulfilled ("data:image/jpeg;base64" ++ "," ++ "SkZJRg=="))
           {| Types.file := Samples.portrait_jpeg |}
           "data:image/jpeg;base64" "SkZJRg==").
  - simpl. intuition discriminate.
  - simpl. intuition discriminate.
  - reflexivity.
Defined.

(** X15: when what the file reader yields has no comma, the image part
    has no data, and [analyzeFace], given a credential, sends the request
    all the same. *)
Theorem analyzeFace_sends_empty_data :
  forall (p : GeminiService.Platform) (imageFile : Types.ImageFile) (result : string),
    Js.truthy (GeminiService.env p !! "API_KEY") = true ->
    GeminiService.readAsDataURL p (Types.file imageFile) = Js.Fulfilled result ->
    ~ In ","%char (list_ascii_of_string result) ->
    GeminiService.requests (GeminiService.analyzeFace p (Some imageFile))
    = [ GeminiService.requestFor
          (GeminiService.InlineDataPart
             {| GeminiService.data := None;
                GeminiService.mimeType := Types.type (Types.file imageFile) |}) ].
Proof.
  intros p imageFile result Hkey Hread Hfree.
  assert (Hpart : GeminiService.fileToGenerativePart (GeminiService.readAsDataURL p)
                    imageFile
                  = Js.Fulfilled
                      (GeminiService.InlineDataPart
                         {| GeminiService.data := None;
                            GeminiService.mimeType := Types.type (Types.file imageFile) |})).
  { unfold GeminiService.fileToGenerativePart. rewrite Hread.
    rewrite split_comma_plain by exact Hfree. reflexivity. }
  unfold GeminiService.analyzeFace. rewrite Hkey, Hpart. simpl.
  destruct (GeminiService.generateContent p _); reflexivity.
Qed.

Lemma analyzeFace_sends_empty_data_for_blank_url :
  GeminiService.requests
    (GeminiService.analyzeFace
       {| GeminiService.env := {[ "API_KEY" := "secret" ]};
          GeminiService.readAsDataURL := fun _ => Js.Fulfilled "data:";
          GeminiService.generateContent :=
            fun _ => Js.Fulfilled {| GeminiService.text := None |} |}
       (Some {| Types.file := Samples.portrait_jpeg |}))
  = [ GeminiService.requestFor
        (GeminiService.InlineDataPart
           {| GeminiService.data := None;
              GeminiService.mimeType := "image/jpeg" |}) ].
Proof.
  apply (analyzeFace_sends_empty_data
           {| GeminiService.env := {[ "API_KEY" := "secret" ]};
              GeminiService.readAsDataURL := fun _ => Js.Fulfilled "data:";
              GeminiService.generateContent :=
                fun _ => Js.Fulfilled {| GeminiService.text := None |} |}
           {| Types.file := Samples.portrait_jpeg |} "data:").
  - reflexivity.
  - reflexivity.
  - simpl. intuition discriminate.
Defined.

(** X16: every request [analyzeFace] sends is sent with a credential
    configured and for an image that is present; it names the model
    gemini-2.5-flash, asks for JSON under the analysis schema, and holds
    the prompt followed by one image part of the file's own MIME type. *)
Theorem analyzeFace_request_shape :
  forall (p : GeminiService.Platform) (image : option Types.ImageFile)
         (request : GeminiService.Request),
    In request (GeminiService.requests (GeminiService.analyzeFace p image)) ->
    Js.truthy (GeminiService.env p !! "API_KEY") = true
    /\ exists (imageFile : Types.ImageFile) (data : option string),
         image = Some imageFile
         /\ GeminiService.model request = "gemini-2.5-flash"
         /\ GeminiService.responseMimeType request = "application/json"
         /\ GeminiService.responseSchema request = GeminiService.analysisSchema
         /\ GeminiService.contents request
            = [ GeminiService.TextPart GeminiService.prompt;
                GeminiService.InlineDataPart
                  {| GeminiService.data := data;
                     GeminiService.mimeType := Types.type (Types.file imageFile) |} ].
Proof.
  intros p image request. unfold GeminiService.analyzeFace.
  destruct (Js.truthy (GeminiService.env p !! "API_KEY")); simpl; [| tauto].
  destruct image as [imageFile |]; simpl; [| tauto].
  unfold GeminiService.fileToGenerativePart.
  destruct (GeminiService.readAsDataURL p (Types.file imageFile)) as [result | e];
    simpl; [| tauto].
  intros Hin. split; [reflexivity |].
  exists imageFile, (nth_error (GeminiService.split_comma result) 1).
  destruct (GeminiService.generateContent p _); simpl in Hin;
    destruct Hin as [<- | []]; repeat split.
Qed.

Lemma analyzeFace_request_shape_balanced :
  Js.truthy (GeminiService.env (Samples.replying (Some Samples.balancedText)) !! "API_KEY")
  = true
  /\ exists (imageFile : Types.ImageFile) (data : option string),
       Some {| Types.file := Samples.portrait_jpeg |} = Some imageFile
       /\ GeminiService.model
            (GeminiService.requestFor
               (GeminiService.InlineDataPart
                  {| GeminiService.data := Some "SkZJRg==";
                     GeminiService.mimeType := "image/jpeg" |}))
          = "gemini-2.5-flash"
       /\ GeminiService.responseMimeType
            (GeminiService.requestFor
               (GeminiService.InlineDataPart
                  {| GeminiService.data := Some "SkZJRg==";
                     GeminiService.mimeType := "image/jpeg" |}))
          = "application/json"
       /\ GeminiService.responseSchema
            (GeminiService.requestFor
               (GeminiService.InlineDataPart
                  {| GeminiService.data := Some "SkZJRg==";
                     GeminiService.mimeType := "image/jpeg" |}))
          = GeminiService.analysisSchema
       /\ GeminiService.contents
            (GeminiService.requestFor
               (GeminiService.InlineDataPart
                  {| GeminiService.data := Some "SkZJRg==";
                     GeminiService.mimeType := "image/jpeg" |}))
          = [ GeminiService.TextPart GeminiService.prompt;
              GeminiService.InlineDataPart
                {| GeminiService.data := data;
                   GeminiService.mimeType := Types.type (Types.file imageFile) |} ].
Proof.
  apply (analyzeFace_request_shape (Samples.replying (Some Samples.balancedText))
           (Some {| Types.file := Samples.portrait_jpeg |})).
  left. reflexivity.
Defined.

(** X17: with an image attached and no credential configured, pressing
    Analyze ends in Error showing the configuration error after the fixed
    prefix, and nothing has been sent to the service. *)
Theorem missing_credential_is_shown :
  forall (p : GeminiService.Platform)
         (view : Json.Value -> Types.AnalysisResult)
         (s : App.State) (img : Types.ImageFile),
    App.image s = Some img ->
    Js.truthy (GeminiService.env p !! "API_KEY") = false ->
    App.handleAnalyze (App.analyzeWith p view) s
    = {| App.image := Some img;
         App.analysisResult := App.analysisResult s;
         App.appState := Types.Error;
         App.error :=
           Some "Unable to analyze. Please re-upload a clear image. Details: API_KEY environment variable not set" |}
    /\ GeminiService.requests (GeminiService.analyzeFace p (Some img)) = [].
Proof.
  intros p view s img Himg Hkey.
  rewrite (handleAnalyze_failure (App.analyzeWith p view) s img
             GeminiService.configurationError Himg).
  - split; [reflexivity |]. now rewrite analyzeFace_unconfigured.
  - unfold App.analyzeWith. now rewrite analyzeFace_unconfigured.
Qed.

Lemma missing_credential_is_shown_on_samples :
  App.handleAnalyze
    (App.analyzeWith
       {| GeminiService.env := ∅;
          GeminiService.readAsDataURL := fun _ => Js.Fulfilled "data:image/jpeg;base64,SkZJRg==";
          GeminiService.generateContent :=
            fun _ => Js.Fulfilled {| GeminiService.text := Some Samples.balancedText |} |}
       (fun _ => Samples.balanced))
    (App.handleImageUpload Samples.portrait_jpeg App.initial)
  = {| App.image := Some {| Types.file := Samples.portrait_jpeg |};
       App.analysisResult := None;
       App.appState := Types.Error;
       App.error :=
         Some "Unable to analyze. Please re-upload a clear image. Details: API_KEY environment variable not set" |}
  /\ GeminiService.requests
       (GeminiService.analyzeFace
          {| GeminiService.env := ∅;
             GeminiService.readAsDataURL := fun _ => Js.Fulfilled "data:image/jpeg;base64,SkZJRg==";
             GeminiService.generateContent :=
               fun _ => Js.Fulfilled {| GeminiService.text := Some Samples.balancedText |} |}
          (Some {| Types.file := Samples.portrait_jpeg |})) = [].
Proof.
  apply (missing_credential_is_shown
           {| GeminiService.env := ∅;
              GeminiService.readAsDataURL := fun _ => Js.Fulfilled "data:image/jpeg;base64,SkZJRg==";
              GeminiService.generateContent :=
                fun _ => Js.Fulfilled {| GeminiService.text := Some Samples.balancedText |} |}
           (fun _ => Samples.balanced)
           (App.handleImageUpload Samples.portrait_jpeg App.initial)
           {| Types.file := Samples.portrait_jpeg |}).
  - reflexivity.
  - reflexivity.
Defined.

(** X18: with an image attached and a credential configured, when the
    file is read and the service answers with text that is not valid
    JSON, pressing Analyze ends in Error showing the parse error after
    the fixed prefix. *)
Theorem unparsable_reply_is_shown :
  forall (p : GeminiService.Platform)
         (view : Json.Value -> Types.AnalysisResult)
         (s : App.State) (img : Types.ImageFile)
         (part : GeminiService.Part) (reply : string),
    App.image s = Some img ->
    Js.truthy (GeminiService.env p !! "API_KEY") = true ->
    GeminiService.fileToGenerativePart (GeminiService.readAsDataURL p) img
      = Js.Fulfilled part ->
    GeminiService.generateContent p (GeminiService.requestFor part)
      = Js.Fulfilled {| GeminiService.text := Some reply |} ->
    Json.parse (Js.trim reply) = None ->
    App.handleAnalyze (App.analyzeWith p view) s
    = {| App.image := Some img;
         App.analysisResult := App.analysisResult s;
         App.appState := Types.Error;
         App.error :=
           Some "Unable to analyze. Please re-upload a clear image. Details: Could not parse the analysis result from the AI. The response was not valid JSON." |}.
Proof.
  intros p view s img part reply Himg Hkey Hread Hcall Hparse.
  rewrite (handleAnalyze_failure (App.analyzeWith p view) s img
             GeminiService.parseError Himg); [reflexivity |].
  unfold App.analyzeWith.
  destruct (analyzeFace_answered p img part _ Hkey Hread Hcall) as [_ ->].
  simpl. now rewrite Hparse.
Qed.

Lemma unparsable_reply_is_shown_for_prose :
  App.handleAnalyze
    (App.analyzeWith (Samples.replying (Some "Sorry, I cannot analyze this image."))
       (fun _ => Samples.balanced))
    (App.handleImageUpload Samples.portrait_jpeg App.initial)
  = {| App.image := Some {| Types.file := Samples.portrait_jpeg |};
       App.analysisResult := None;
       App.appState := Types.Error;
       App.error :=
         Some "Unable to analyze. Please re-upload a clear image. Details: Could not parse the analysis result from the AI. The response was not valid JSON." |}.
Proof.
  apply (unparsable_reply_is_shown
           (Samples.replying (Some "Sorry, I cannot analyze this image."))
           (fun _ => Samples.balanced)
           (App.handleImageUpload Samples.portrait_jpeg App.initial)
           {| Types.file := Samples.portrait_jpeg |}
           (GeminiService.InlineDataPart
              {| GeminiService.data := Some "SkZJRg==";
                 GeminiService.mimeType := "image/jpeg" |})
           "Sorry, I cannot analyze this image.").
  - reflexivity.
  - reflexivity.
  - reflexivity.
  - reflexivity.
  - vm_compute. reflexivity.
Defined.

(* ===================================================================== *)
(** ** The exporter's runs, event by event *)
(* ===================================================================== *)

Section ExporterTrace.
Import PdfGenerator.

(** The events of a capture: the five of a successful export, or some of
    them followed by the log entry and the alert of the [catch] clause. *)
Lemma capture_events rasterize construct (target : HTMLElement) :
  let shown := setStyle "backgroundColor" "#262626" target in
  let events := events (snd (capture rasterize construct
                               {| element := target; events := [] |})) in
  (exists (canvas : Canvas) (imgData : string),
     rasterize shown captureOptions = Js.Fulfilled canvas
     /\ events
        = [ Timeout 200;
            Rasterize shown captureOptions;
            NewDocument (pdfOptions canvas);
            AddImage imgData "PNG" 0 0 pdfWidth (pdfHeight canvas);
            Save "Fibonacci-Face-Analysis.pdf" ])
  \/ (exists (before : list Event) (e : Js.Thrown),
        events
        = (before
           ++ [ ConsoleError "Error generating PDF:" (Some e);
                Alert "An error occurred while generating the PDF report. Please try again." ])%list
        /\ (before = [ Timeout 200; Rasterize shown captureOptions ]
            \/ exists (canvas : Canvas),
                 rasterize shown captureOptions = Js.Fulfilled canvas
                 /\ (before
                     = [ Timeout 200; Rasterize shown captureOptions;
                         NewDocument (pdfOptions canvas) ]
                     \/ exists imgData : string,
                          before
                          = [ Timeout 200; Rasterize shown captureOptions;
                              NewDocument (pdfOptions canvas);
                              AddImage imgData "PNG" 0 0 pdfWidth (pdfHeight canvas) ]
                          \/ before
                             = [ Timeout 200; Rasterize shown captureOptions;
                                 NewDocument (pdfOptions canvas);
                                 AddImage imgData "PNG" 0 0 pdfWidth (pdfHeight canvas);
                                 Save "Fibonacci-Face-Analysis.pdf" ]))).
Proof.
  cbv zeta.
  unfold capture, bind, tryCatch, readElement, assignStyle, emit, await, throwing.
  simpl.
  destruct (rasterize _ _) as [canvas | e]; simpl.
  2: { right. exists [Timeout 200; Rasterize (setStyle "backgroundColor" "#262626" target)
                                     captureOptions], e.
       split; [reflexivity | now left]. }
  destruct (toDataURL canvas _) as [imgData | e]; simpl.
  2: { right. exists [Timeout 200; Rasterize (setStyle "backgroundColor" "#262626" target)
                                     captureOptions], e.
       split; [reflexivity | now left]. }
  destruct (construct _) as [pdf | e]; simpl.
  2: { right.
       exists [Timeout 200;
               Rasterize (setStyle "backgroundColor" "#262626" target) captureOptions;
               NewDocument (pdfOptions canvas)], e.
       split; [reflexivity |]. right. exists canvas.
       split; [reflexivity | now left]. }
  destruct (addImage pdf _ _ _ _ _ _) as [e |]; simpl.
  { right.
    exists [Timeout 200;
            Rasterize (setStyle "backgroundColor" "#262626" target) captureOptions;
            NewDocument (pdfOptions canvas);
            AddImage imgData "PNG" 0 0 pdfWidth (pdfHeight canvas)], e.
    split; [reflexivity |]. right. exists canvas.
    split; [reflexivity |]. right. exists imgData. now left. }
  destruct (save pdf _) as [e |]; simpl.
  { right.
    exists [Timeout 200;
            Rasterize (setStyle "backgroundColor" "#262626" target) captureOptions;
            NewDocument (pdfOptions canvas);
            AddImage imgData "PNG" 0 0 pdfWidth (pdfHeight canvas);
            Save "Fibonacci-Face-Analysis.pdf"], e.
    split; [reflexivity |]. right. exists canvas.
    split; [reflexivity |]. right. exists imgData. now right. }
  left. exists canvas, imgData. now split.
Qed.

Lemma generatePdf_reports_failures_completion (w : Window) (target : HTMLElement) :
  exists u : Datatypes.unit, completion (generatePdf w (Some target)) = Js.Fulfilled u.
Proof.
  unfold generatePdf.
  destruct (libraries w) as [[rasterize construct] |]; [| now eexists].
  destruct (capture_settles rasterize construct target) as (d & -> & _).
  now eexists.
Qed.

Lemma generatePdf_trace (w : Window) (target : HTMLElement) rasterize construct :
  libraries w = Some (rasterize, construct) ->
  trace (generatePdf w (Some target))
  = events (snd (capture rasterize construct {| element := target; events := [] |})).
Proof.
  intros Hlibs. unfold generatePdf. rewrite Hlibs.
  now destruct (capture rasterize construct _).
Qed.

End ExporterTrace.

(** X19: every export of an element either runs through (timeout,
    rasterization, new document, image added, saved as
    Fibonacci-Face-Analysis.pdf, and no alert), or ends with an alert,
    which is then the only one shown. *)
Theorem generatePdf_saves_or_alerts :
  forall (w : PdfGenerator.Window) (target : PdfGenerator.HTMLElement),
    let trace := PdfGenerator.trace (PdfGenerator.generatePdf w (Some target)) in
    (exists (canvas : PdfGenerator.Canvas) (imgData : string),
       trace
       = [ PdfGenerator.Timeout 200;
           PdfGenerator.Rasterize
             (PdfGenerator.setStyle "backgroundColor" "#262626" target)
             PdfGenerator.captureOptions;
           PdfGenerator.NewDocument (PdfGenerator.pdfOptions canvas);
           PdfGenerator.AddImage imgData "PNG" 0 0 PdfGenerator.pdfWidth
             (PdfGenerator.pdfHeight canvas);
           PdfGenerator.Save "Fibonacci-Face-Analysis.pdf" ])
    \/ (exists (before : list PdfGenerator.Event) (message : string),
          trace = (before ++ [PdfGenerator.Alert message])%list
          /\ forall other : string, ~ In (PdfGenerator.Alert other) before).
Proof.
  intros w target. cbv zeta.
  destruct (PdfGenerator.libraries w) as [[rasterize construct] |] eqn:Hlibs.
  - rewrite (generatePdf_trace w target rasterize construct Hlibs).
    destruct (capture_events rasterize construct target)
      as [(canvas & imgData & _ & ->) | (before & e & -> & Hbefore)].
    + left. now exists canvas, imgData.
    + right.
      exists (before ++ [PdfGenerator.ConsoleError "Error generating PDF:" (Some e)])%list,
             "An error occurred while generating the PDF report. Please try again.".
      split; [now rewrite <- app_assoc |].
      intros other Hin. apply in_app_or in Hin as [Hin | [Hin | []]]; [| discriminate].
      destruct Hbefore as [-> | (canvas & _ & [-> | (imgData & [-> | ->])])];
        simpl in Hin; intuition discriminate.
  - right. unfold PdfGenerator.generatePdf. rewrite Hlibs. simpl.
    eexists [_], _. split; [reflexivity |].
    intros other [Hin | []]. discriminate.
Qed.

(** X20: the element is rasterized while it has the dark background, all
    its other style properties being the original ones, with the options
    scale 2, CORS on, the same dark background and logging off. *)
Theorem generatePdf_rasterizes_dark :
  forall (w : PdfGenerator.Window) (target shown : PdfGenerator.HTMLElement)
         (options : PdfGenerator.Html2CanvasOptions),
    In (PdfGenerator.Rasterize shown options)
       (PdfGenerator.trace (PdfGenerator.generatePdf w (Some target))) ->
    PdfGenerator.getStyle "backgroundColor" shown = "#262626"
    /\ (forall property : string,
          property <> "backgroundColor" ->
          PdfGenerator.style shown !! property = PdfGenerator.style target !! property)
    /\ options
       = {| PdfGenerator.scale := 2; PdfGenerator.useCORS := true;
            PdfGenerator.backgroundColor := "#262626";
            PdfGenerator.logging := false |}.
Proof.
  intros w target shown options.
  destruct (PdfGenerator.libraries w) as [[rasterize construct] |] eqn:Hlibs.
  - rewrite (generatePdf_trace w target rasterize construct Hlibs).
    assert (Hshown : In (PdfGenerator.Rasterize shown options)
                       (PdfGenerator.events
                          (snd (PdfGenerator.capture rasterize construct
                                  {| PdfGenerator.element := target;
                                     PdfGenerator.events := [] |}))) ->
                     shown = PdfGenerator.setStyle "backgroundColor" "#262626" target
                     /\ options = PdfGenerator.captureOptions).
    { destruct (capture_events rasterize construct target)
        as [(canvas & imgData & _ & ->) | (before & e & -> & Hbefore)].
      - simpl. intuition congruence.
      - intros Hin. apply in_app_or in Hin as [Hin | Hin].
        + destruct Hbefore as [-> | (canvas & _ & [-> | (imgData & [-> | ->])])];
            simpl in Hin; intuition congruence.
        + simpl in Hin. intuition congruence. }
    intros Hin. destruct (Hshown Hin) as [-> ->].
    split; [apply getStyle_setStyle |].
    split; [| reflexivity].
    intros property Hne. apply setStyle_other. congruence.
  - unfold PdfGenerator.generatePdf. rewrite Hlibs. simpl. intuition discriminate.
Qed.

Lemma generatePdf_rasterizes_dark_report :
  PdfGenerator.getStyle "backgroundColor"
    (PdfGenerator.setStyle "backgroundColor" "#262626" Samples.report) = "#262626"
  /\ (forall property : string,
        property <> "backgroundColor" ->
        PdfGenerator.style
          (PdfGenerator.setStyle "backgroundColor" "#262626" Samples.report) !! property
        = PdfGenerator.style Samples.report !! property)
  /\ PdfGenerator.captureOptions
     = {| PdfGenerator.scale := 2; PdfGenerator.useCORS := true;
          PdfGenerator.backgroundColor := "#262626";
          PdfGenerator.logging := false |}.
Proof.
  apply (generatePdf_rasterizes_dark Samples.working Samples.report).
  vm_compute. tauto.
Defined.



(** X22: whatever happens to the export, [handleDownload] ends with the
    download button enabled again and the detail panel as the user had
    it; with the report not mounted it does nothing. *)
Theorem handleDownload_always_finishes :
  forall (w : PdfGenerator.Window) (s : AnalysisReport.State),
    (forall target : PdfGenerator.HTMLElement,
       AnalysisReport.handleDownload w (Some target) s
       = ({| AnalysisReport.isDownloading := false;
             AnalysisReport.showDetails := AnalysisReport.showDetails s |},
          Some (PdfGenerator.generatePdf w (Some target))))
    /\ AnalysisReport.handleDownload w None s = (s, None).
Proof.
  intros w s. split; [| reflexivity].
  intros target. unfold AnalysisReport.handleDownload.
  destruct (generatePdf_reports_failures_completion w target) as [u ->].
  reflexivity.
Qed.
